(** * doctor-crawler: record extraction and aggregate report

    A shallow embedding of [main.py] ([AndalusiaHealthCrawler.extract_doctor_info]),
    [db.py] (the stored [Doctor] row) and [analyze.py] ([analyze_doctors]),
    followed by the properties of the extraction and aggregation pipeline.

    Conventions of the embedding:
    - a Python [str] is a [string]; its characters are read as the code
      points below 256;
    - a Python call that may raise returns a [result]; [None] is the [None]
      of [option];
    - a [try] block is a computation over the local variables of the
      enclosing function ([Block]): what was assigned before an exception is
      still assigned when the handler runs;
    - the builtins [float] and [int] are an interface ([FloatType],
      [PyBuiltins]). *)

From Stdlib Require Import String Ascii List ZArith QArith Bool Lia.
Import ListNotations.

Local Open Scope list_scope.
Local Open Scope Z_scope.
Local Open Scope string_scope.

(** ** Exceptions and results *)

(** The exception classes that the modelled calls raise; every one of them is
    a subclass of [Exception], so [except:] and [except Exception] catch the
    same set here. *)
Inductive exn : Type :=
| NoSuchElementException
| StaleElementReferenceException
| AttributeError
| ValueError
| IndexError
| ZeroDivisionError.

Inductive result (A : Type) : Type :=
| Ok (a : A)
| Raise (e : exn).

Arguments Ok {A} a.
Arguments Raise {A} e.

Definition rbind {A B : Type} (r : result A) (k : A -> result B) : result B :=
  match r with
  | Ok a => k a
  | Raise e => Raise e
  end.

Notation "x <~ r ;; k" := (rbind r (fun x => k))
  (at level 61, r at next level, right associativity).

Definition is_ok {A : Type} (r : result A) : bool :=
  match r with Ok _ => true | Raise _ => false end.

(** ** Statement blocks over local variables *)

(** A block of statements run from a state [S] of local variables gives a
    result and the state it leaves behind, also when it raises. *)
Definition Block (S A : Type) : Type := S -> result A * S.

Definition ret {S A : Type} (a : A) : Block S A := fun s => (Ok a, s).

Definition bind {S A B : Type} (m : Block S A) (k : A -> Block S B) : Block S B :=
  fun s =>
    match m s with
    | (Ok a, s') => k a s'
    | (Raise e, s') => (Raise e, s')
    end.

Notation "x <- m ;; k" := (bind m (fun x => k))
  (at level 61, m at next level, right associativity).
Notation "m ;;; k" := (bind m (fun _ => k))
  (at level 61, right associativity).

(** An expression evaluated inside a block. *)
Definition lift {S A : Type} (r : result A) : Block S A := fun s => (r, s).

(** An assignment to a local variable. *)
Definition assign {S : Type} (f : S -> S) : Block S unit := fun s => (Ok tt, f s).

(** [try: body except: handler]. *)
Definition try_except {S : Type} (body : Block S unit) (handler : exn -> Block S unit)
  : Block S unit :=
  fun s =>
    match body s with
    | (Ok u, s') => (Ok u, s')
    | (Raise e, s') => handler e s'
    end.

(** [pass]. *)
Definition pass {S : Type} : Block S unit := ret tt.

(** [for x in l: body x]. *)
Fixpoint for_each {S A : Type} (l : list A) (body : A -> Block S unit) : Block S unit :=
  match l with
  | [] => ret tt
  | x :: rest => body x ;;; for_each rest body
  end.

(** ** Python strings *)

Module Str.

(** [str.isspace] on one character, for the code points below 256. *)
Definition is_space (c : ascii) : bool :=
  let n := nat_of_ascii c in
  ((9 <=? n) && (n <=? 13) || (28 <=? n) && (n <=? 32) || (n =? 133) || (n =? 160))%nat.

Fixpoint mem (c : ascii) (chars : string) : bool :=
  match chars with
  | EmptyString => false
  | String c' rest => Ascii.eqb c c' || mem c rest
  end.

Fixpoint lstrip_by (p : ascii -> bool) (s : string) : string :=
  match s with
  | EmptyString => EmptyString
  | String c rest => if p c then lstrip_by p rest else s
  end.

Fixpoint rstrip_by (p : ascii -> bool) (s : string) : string :=
  match s with
  | EmptyString => EmptyString
  | String c rest =>
      match rstrip_by p rest with
      | EmptyString => if p c then EmptyString else String c EmptyString
      | rest' => String c rest'
      end
  end.

(** [s.strip()]. *)
Definition strip (s : string) : string := rstrip_by is_space (lstrip_by is_space s).

(** [s.strip(chars)]. *)
Definition strip_chars (chars s : string) : string :=
  rstrip_by (fun c => mem c chars) (lstrip_by (fun c => mem c chars) s).

(** [s.startswith(p)]. *)
Definition startswith (p s : string) : bool := String.prefix p s.

(** [sub in s]. *)
Fixpoint contains (sub s : string) : bool :=
  String.prefix sub s ||
  match s with
  | EmptyString => false
  | String _ rest => contains sub rest
  end.

(** The scan shared by [split] and [replace]: [skip] counts the characters
    of a separator occurrence still to be passed over. *)
Fixpoint split_from (sep : string) (skip : nat) (s : string) : string * list string :=
  match s with
  | EmptyString => (EmptyString, [])
  | String c rest =>
      match skip with
      | S k => split_from sep k rest
      | O =>
          if String.prefix sep s
          then let (piece, pieces) := split_from sep (String.length sep - 1) rest in
               (EmptyString, piece :: pieces)
          else let (piece, pieces) := split_from sep O rest in
               (String c piece, pieces)
      end
  end.

(** [s.split(sep)]: [ValueError] on the empty separator. *)
Definition split (sep s : string) : result (list string) :=
  match sep with
  | EmptyString => Raise ValueError
  | _ => let (piece, pieces) := split_from sep O s in Ok (piece :: pieces)
  end.

Fixpoint join (sep : string) (l : list string) : string :=
  match l with
  | [] => EmptyString
  | [x] => x
  | x :: rest => x ++ sep ++ join sep rest
  end.

Fixpoint interleave (new s : string) : string :=
  match s with
  | EmptyString => new
  | String c rest => new ++ String c (interleave new rest)
  end.

(** [s.replace(old, new)]: every occurrence, left to right, without
    overlap; with an empty [old], [new] goes around every character. *)
Definition replace (old new s : string) : string :=
  match old with
  | EmptyString => interleave new s
  | _ => let (piece, pieces) := split_from old O s in join new (piece :: pieces)
  end.

(** The string does not begin with a character that [p] strips. *)
Definition clean_head (p : ascii -> bool) (s : string) : Prop :=
  match s with
  | EmptyString => True
  | String c _ => p c = false
  end.

(** The truth value of a string: non-empty. *)
Definition truthy (s : string) : bool :=
  match s with EmptyString => false | _ => true end.

(** The truth value of [None] or a string. *)
Definition truthy_opt (o : option string) : bool :=
  match o with None => false | Some s => truthy s end.

(** [l[0]]. *)
Definition index0 {A : Type} (l : list A) : result A :=
  match l with
  | [] => Raise IndexError
  | x :: _ => Ok x
  end.

(** [x in l] for a list of strings. *)
Definition in_list (x : string) (l : list string) : bool := existsb (String.eqb x) l.

End Str.

(** ** The builtins [float] and [int] *)

(** The values of Python's [float]. *)
Class FloatType : Type := {
  float : Type
}.

Class PyBuiltins {F : FloatType} : Type := {
  (** [float(s)]: [None] when it raises [ValueError] *)
  py_float : string -> option float;
  (** [int(s)]: [None] when it raises [ValueError] *)
  py_int : string -> option Z;
  (** the truth value of a float: [x != 0] *)
  float_truthy : float -> bool;
  (** [x > 0] *)
  float_gt_zero : float -> bool
}.

Definition or_raise {A : Type} (e : exn) (o : option A) : result A :=
  match o with
  | Some a => Ok a
  | None => Raise e
  end.

(** ** The page: elements and lookups *)

(** A Selenium [WebElement] (or shadow root), seen through the calls the
    crawler makes on it.  [find_element] raises, returns [None], or returns
    an element. *)
#[local] Unset Elimination Schemes.
Inductive WebElement : Type := mkElement {
  text : result string;
  get_attribute : string -> result (option string);
  find_element : string -> result (option WebElement);
  find_elements : string -> result (list WebElement)
}.
#[local] Set Elimination Schemes.

(** A method called on the value of a lookup: [AttributeError] on [None]. *)
Definition on {A : Type} (o : option WebElement) (method : WebElement -> result A) : result A :=
  match o with
  | Some e => method e
  | None => Raise AttributeError
  end.

(** ** main.py *)

Module Main.

Section Crawler.

Context {F : FloatType} {B : PyBuiltins}.

(** The dataclass [Doctor]. *)
Record Doctor : Type := mkDoctor {
  name : string;
  specialty : option string;
  profile_url : option string;
  image_url : option string;
  location : option string;
  phone : option string;
  has_multiple_locations : bool;
  is_employed_provider : bool;
  is_accepting_new_patients : bool;
  rating : option float;
  rating_count : option Z
}.

Definition BASE_URL : string := "https://www.andalusiahealth.com".

(** The CSS selectors of [extract_doctor_info], in the order of their use. *)
Definition sel_containers : string := "div.list-item-content".
Definition sel_name : string := "span[itemprop='name'], a span.link_provider_display_name".
Definition sel_url : string := "a[href*='/provider']".
Definition sel_specialty : string := "span[itemprop='medicalSpecialty']".
Definition sel_image : string := "div.provider-image img".
Definition sel_multiple_location : string := "a[data-testref='provider-cards-location']".
Definition sel_facility : string := "span[itemprop='name'][color='gray_800']".
Definition sel_address : string := "span[itemprop='streetAddress']".
Definition sel_phone : string := "a[href^='tel:']".
Definition sel_badge : string := "div.styles__Badge-sc-o9cga9-6 span".
Definition sel_rating : string := "div.loyal-stars[itemprop='aggregateRating']".
Definition sel_rating_value : string := "span[itemprop='ratingValue']".
Definition sel_rating_count : string := "span[itemprop='ratingCount']".

(** The local variables that the body of the [for] loop assigns. *)
Record Locals : Type := mkLocals {
  v_name : string;
  v_url : option string;
  v_specialty : option string;
  v_image_url : option string;
  v_location : option string;
  v_facility_name : option string;
  v_multiple_locations : bool;
  v_street_address : option string;
  v_phone : option string;
  v_employed_provider : bool;
  v_accepts_new_patients : bool;
  v_rating : option float;
  v_rating_count : option Z
}.

(** Every local is assigned before it is read, in every iteration; the
    values a fresh iteration starts from are never observed. *)
Definition fresh_locals : Locals :=
  mkLocals "" None None None None None false None None false false None None.

Definition set_name (x : string) (l : Locals) : Locals :=
  mkLocals x (v_url l) (v_specialty l) (v_image_url l) (v_location l) (v_facility_name l)
    (v_multiple_locations l) (v_street_address l) (v_phone l) (v_employed_provider l)
    (v_accepts_new_patients l) (v_rating l) (v_rating_count l).
Definition set_url (x : option string) (l : Locals) : Locals :=
  mkLocals (v_name l) x (v_specialty l) (v_image_url l) (v_location l) (v_facility_name l)
    (v_multiple_locations l) (v_street_address l) (v_phone l) (v_employed_provider l)
    (v_accepts_new_patients l) (v_rating l) (v_rating_count l).
Definition set_specialty (x : option string) (l : Locals) : Locals :=
  mkLocals (v_name l) (v_url l) x (v_image_url l) (v_location l) (v_facility_name l)
    (v_multiple_locations l) (v_street_address l) (v_phone l) (v_employed_provider l)
    (v_accepts_new_patients l) (v_rating l) (v_rating_count l).
Definition set_image_url (x : option string) (l : Locals) : Locals :=
  mkLocals (v_name l) (v_url l) (v_specialty l) x (v_location l) (v_facility_name l)
    (v_multiple_locations l) (v_street_address l) (v_phone l) (v_employed_provider l)
    (v_accepts_new_patients l) (v_rating l) (v_rating_count l).
Definition set_location (x : option string) (l : Locals) : Locals :=
  mkLocals (v_name l) (v_url l) (v_specialty l) (v_image_url l) x (v_facility_name l)
    (v_multiple_locations l) (v_street_address l) (v_phone l) (v_employed_provider l)
    (v_accepts_new_patients l) (v_rating l) (v_rating_count l).
Definition set_facility_name (x : option string) (l : Locals) : Locals :=
  mkLocals (v_name l) (v_url l) (v_specialty l) (v_image_url l) (v_location l) x
    (v_multiple_locations l) (v_street_address l) (v_phone l) (v_employed_provider l)
    (v_accepts_new_patients l) (v_rating l) (v_rating_count l).
Definition set_multiple_locations (x : bool) (l : Locals) : Locals :=
  mkLocals (v_name l) (v_url l) (v_specialty l) (v_image_url l) (v_location l) (v_facility_name l)
    x (v_street_address l) (v_phone l) (v_employed_provider l)
    (v_accepts_new_patients l) (v_rating l) (v_rating_count l).
Definition set_street_address (x : option string) (l : Locals) : Locals :=
  mkLocals (v_name l) (v_url l) (v_specialty l) (v_image_url l) (v_location l) (v_facility_name l)
    (v_multiple_locations l) x (v_phone l) (v_employed_provider l)
    (v_accepts_new_patients l) (v_rating l) (v_rating_count l).
Definition set_phone (x : option string) (l : Locals) : Locals :=
  mkLocals (v_name l) (v_url l) (v_specialty l) (v_image_url l) (v_location l) (v_facility_name l)
    (v_multiple_locations l) (v_street_address l) x (v_employed_provider l)
    (v_accepts_new_patients l) (v_rating l) (v_rating_count l).
Definition set_employed_provider (x : bool) (l : Locals) : Locals :=
  mkLocals (v_name l) (v_url l) (v_specialty l) (v_image_url l) (v_location l) (v_facility_name l)
    (v_multiple_locations l) (v_street_address l) (v_phone l) x
    (v_accepts_new_patients l) (v_rating l) (v_rating_count l).
Definition set_accepts_new_patients (x : bool) (l : Locals) : Locals :=
  mkLocals (v_name l) (v_url l) (v_specialty l) (v_image_url l) (v_location l) (v_facility_name l)
    (v_multiple_locations l) (v_street_address l) (v_phone l) (v_employed_provider l)
    x (v_rating l) (v_rating_count l).
Definition set_rating (x : option float) (l : Locals) : Locals :=
  mkLocals (v_name l) (v_url l) (v_specialty l) (v_image_url l) (v_location l) (v_facility_name l)
    (v_multiple_locations l) (v_street_address l) (v_phone l) (v_employed_provider l)
    (v_accepts_new_patients l) x (v_rating_count l).
Definition set_rating_count (x : option Z) (l : Locals) : Locals :=
  mkLocals (v_name l) (v_url l) (v_specialty l) (v_image_url l) (v_location l) (v_facility_name l)
    (v_multiple_locations l) (v_street_address l) (v_phone l) (v_employed_provider l)
    (v_accepts_new_patients l) (v_rating l) x.

(** The value of a local variable. *)
Definition read {A : Type} (f : Locals -> A) : Block Locals A := fun l => (Ok (f l), l).

(** How an f-string shows a string or [None]. *)
Definition fstr (o : option string) : string :=
  match o with
  | Some s => s
  | None => "None"
  end.

(** Lines 88-90: the name. *)
Definition name_step (container : WebElement) : Block Locals unit :=
  name_element <- lift (find_element container sel_name) ;;
  name <- lift (match name_element with
                | Some e => t <~ text e ;; Ok (Str.strip t)
                | None => Ok "Unknown Doctor"
                end) ;;
  assign (set_name name).

(** Lines 92-96: the profile URL. *)
Definition url_step (container : WebElement) : Block Locals unit :=
  url_element <- lift (find_element container sel_url) ;;
  url <- lift (match url_element with
               | Some e => get_attribute e "href"
               | None => Ok None
               end) ;;
  assign (set_url url) ;;;
  match url with
  | Some u =>
      if Str.truthy u && negb (Str.startswith "http" u)
      then assign (set_url (Some (BASE_URL ++ u)))
      else pass
  | None => pass
  end.

(** Lines 98-100: the specialty. *)
Definition specialty_step (container : WebElement) : Block Locals unit :=
  specialty_element <- lift (find_element container sel_specialty) ;;
  specialty <- lift (match specialty_element with
                     | Some e => t <~ text e ;; Ok (Some (Str.strip t))
                     | None => Ok None
                     end) ;;
  assign (set_specialty specialty).

(** Lines 102-108: the image URL. *)
Definition image_block (container : WebElement) : Block Locals unit :=
  assign (set_image_url None) ;;;
  try_except
    (img_element <- lift (find_element container sel_image) ;;
     src <- lift (on img_element (fun e => get_attribute e "src")) ;;
     assign (set_image_url src))
    (fun _ => pass).

(** Lines 117-122: the multiple-locations marker, in a [try] of its own. *)
Definition multiple_locations_block (container : WebElement) : Block Locals unit :=
  try_except
    (multiple_location_element <- lift (find_element container sel_multiple_location) ;;
     match multiple_location_element with
     | Some e =>
         t <- lift (text e) ;;
         if Str.contains "+1 other location" t
         then assign (set_multiple_locations true)
         else pass
     | None => pass
     end)
    (fun _ => pass).

(** Lines 132-138: facility name and street address put together. *)
Definition combine_location : Block Locals unit :=
  facility_name <- read v_facility_name ;;
  street_address <- read v_street_address ;;
  if Str.truthy_opt facility_name && Str.truthy_opt street_address
  then assign (set_location (Some (fstr facility_name ++ ": " ++ fstr street_address)))
  else if Str.truthy_opt street_address
  then assign (set_location street_address)
  else if Str.truthy_opt facility_name
  then assign (set_location facility_name)
  else pass.

(** Lines 110-141: the location. *)
Definition location_block (container : WebElement) : Block Locals unit :=
  assign (set_location None) ;;;
  assign (set_facility_name None) ;;;
  assign (set_multiple_locations false) ;;;
  try_except
    (multiple_locations_block container ;;;
     facility_element <- lift (find_element container sel_facility) ;;
     facility_name <- lift (match facility_element with
                            | Some e => t <~ text e ;; Ok (Some (Str.strip t))
                            | None => Ok None
                            end) ;;
     assign (set_facility_name facility_name) ;;;
     address_element <- lift (find_element container sel_address) ;;
     street_address <- lift (match address_element with
                             | Some e => t <~ text e ;; Ok (Some (Str.strip t))
                             | None => Ok None
                             end) ;;
     assign (set_street_address street_address) ;;;
     combine_location)
    (fun _ => pass).

(** Lines 143-149: the phone number. *)
Definition phone_block (container : WebElement) : Block Locals unit :=
  assign (set_phone None) ;;;
  try_except
    (phone_element <- lift (find_element container sel_phone) ;;
     href <- lift (on phone_element (fun e => get_attribute e "href")) ;;
     phone <- lift (match href with
                    | Some h => Ok (Str.replace "tel:" "" h)
                    | None => Raise AttributeError
                    end) ;;
     assign (set_phone (Some phone)))
    (fun _ => pass).

(** Lines 157-161 (and 172-176): one badge. *)
Definition badge_step (badge : WebElement) : Block Locals unit :=
  badge_text <- lift (t <~ text badge ;; Ok (Str.strip t)) ;;
  (if Str.contains "Employed Provider" badge_text
   then assign (set_employed_provider true)
   else pass) ;;;
  (if Str.contains "Accepts New Patients" badge_text
   then assign (set_accepts_new_patients true)
   else pass).

(** Lines 151-164, and again lines 166-179: the status badges. *)
Definition badge_block (container : WebElement) : Block Locals unit :=
  assign (set_employed_provider false) ;;;
  assign (set_accepts_new_patients false) ;;;
  try_except
    (badge_elements <- lift (find_elements container sel_badge) ;;
     for_each badge_elements badge_step)
    (fun _ => pass).

(** Line 193: [float(rating_text.split('/')[0].strip())]. *)
Definition parse_rating (rating_text : string) : result float :=
  parts <~ Str.split "/" rating_text ;;
  first <~ Str.index0 parts ;;
  or_raise ValueError (py_float (Str.strip first)).

(** Lines 198-200: [int(text.strip().strip('()'))]. *)
Definition parse_rating_count (t : string) : result Z :=
  let count_text := Str.strip t in
  or_raise ValueError (py_int (Str.strip_chars "()" count_text)).

(** Lines 189-193: the rating value. *)
Definition rating_value_step (rating_element : WebElement) : Block Locals unit :=
  rating_value_element <- lift (find_element rating_element sel_rating_value) ;;
  match rating_value_element with
  | Some e =>
      rating_text <- lift (text e) ;;
      r <- lift (parse_rating rating_text) ;;
      assign (set_rating (Some r))
  | None => pass
  end.

(** Lines 196-200: the rating count. *)
Definition rating_count_step (rating_element : WebElement) : Block Locals unit :=
  rating_count_element <- lift (find_element rating_element sel_rating_count) ;;
  match rating_count_element with
  | Some e =>
      t <- lift (text e) ;;
      n <- lift (parse_rating_count t) ;;
      assign (set_rating_count (Some n))
  | None => pass
  end.

(** Lines 181-204: the rating. *)
Definition rating_block (container : WebElement) : Block Locals unit :=
  assign (set_rating None) ;;;
  assign (set_rating_count None) ;;;
  try_except
    (rating_element <- lift (find_element container sel_rating) ;;
     match rating_element with
     | Some rating_element =>
         rating_value_step rating_element ;;;
         rating_count_step rating_element
     | None => pass
     end)
    (fun _ => pass).

(** Lines 207-219: the [Doctor] made of the locals. *)
Definition make_doctor (l : Locals) : Doctor :=
  {| name := v_name l;
     specialty := v_specialty l;
     profile_url := v_url l;
     image_url := v_image_url l;
     location := v_location l;
     phone := v_phone l;
     has_multiple_locations := v_multiple_locations l;
     is_employed_provider := v_employed_provider l;
     is_accepting_new_patients := v_accepts_new_patients l;
     rating := v_rating l;
     rating_count := v_rating_count l |}.

(** Lines 88-219: the statements of the outer [try] up to the construction
    of the [Doctor]. *)
Definition loop_body (container : WebElement) : Block Locals Doctor :=
  name_step container ;;;
  url_step container ;;;
  specialty_step container ;;;
  image_block container ;;;
  location_block container ;;;
  phone_block container ;;;
  badge_block container ;;;
  badge_block container ;;;
  rating_block container ;;;
  read make_doctor.

(** The candidate record of one container, or the exception that reaches
    the outer [except]. *)
Definition candidate (container : WebElement) : result Doctor :=
  fst (loop_body container fresh_locals).

(** Line 221: [name and name not in [d.name for d in doctors]]. *)
Definition accepted (doctor : Doctor) (doctors : list Doctor) : bool :=
  Str.truthy (name doctor) && negb (Str.in_list (name doctor) (map name doctors)).

(** Lines 86-225: the [for] loop over the containers, from the list
    [doctors] built so far.  An exception in the body is logged and the loop
    goes on with the next container. *)
Fixpoint for_containers (doctor_containers : list WebElement) (doctors : list Doctor)
  : list Doctor :=
  match doctor_containers with
  | [] => doctors
  | container :: rest =>
      match candidate container with
      | Ok doctor =>
          if accepted doctor doctors
          then for_containers rest (doctors ++ [doctor])%list
          else for_containers rest doctors
      | Raise _ => for_containers rest doctors
      end
  end.

(** The extraction of a sequence of containers: the loop from [doctors = []]. *)
Definition extract (doctor_containers : list WebElement) : list Doctor :=
  for_containers doctor_containers [].

(** Lines 79-227. *)
Definition extract_doctor_info (shadow_root : WebElement) : result (list Doctor) :=
  doctor_containers <~ find_elements shadow_root sel_containers ;;
  Ok (extract doctor_containers).


(** *** What each step leaves in the record

    Each observer runs one step of the loop body on its own and reads the
    local it assigns. *)

Definition outcome {A : Type} (step : Block Locals unit) (var : Locals -> A) : result A :=
  match step fresh_locals with
  | (Ok _, l) => Ok (var l)
  | (Raise e, _) => Raise e
  end.

Definition name_of (container : WebElement) : result string :=
  outcome (name_step container) v_name.

Definition url_of (container : WebElement) : result (option string) :=
  outcome (url_step container) v_url.

Definition specialty_of (container : WebElement) : result (option string) :=
  outcome (specialty_step container) v_specialty.

Definition image_url_of (container : WebElement) : option string :=
  v_image_url (snd (image_block container fresh_locals)).

Definition location_of (container : WebElement) : option string :=
  v_location (snd (location_block container fresh_locals)).

Definition multiple_locations_of (container : WebElement) : bool :=
  v_multiple_locations (snd (location_block container fresh_locals)).

Definition phone_of (container : WebElement) : option string :=
  v_phone (snd (phone_block container fresh_locals)).

Definition employed_provider_of (container : WebElement) : bool :=
  v_employed_provider (snd (badge_block container fresh_locals)).

Definition accepts_new_patients_of (container : WebElement) : bool :=
  v_accepts_new_patients (snd (badge_block container fresh_locals)).

Definition rating_of (container : WebElement) : option float :=
  v_rating (snd (rating_block container fresh_locals)).

Definition rating_count_of (container : WebElement) : option Z :=
  v_rating_count (snd (rating_block container fresh_locals)).

(** The outcome of lines 189-193 on a rating container: the exception, or
    the value assigned to [rating] ([None] when nothing is assigned). *)
Definition rating_value_outcome (rating_element : WebElement) : result (option float) :=
  outcome (rating_value_step rating_element) v_rating.

(** The outcome of lines 196-200 on a rating container. *)
Definition rating_count_outcome (rating_element : WebElement) : result (option Z) :=
  outcome (rating_count_step rating_element) v_rating_count.

(** *** Reference definitions for the properties *)

(** The loop body with the badge block written once. *)
Definition loop_body_single_pass (container : WebElement) : Block Locals Doctor :=
  name_step container ;;;
  url_step container ;;;
  specialty_step container ;;;
  image_block container ;;;
  location_block container ;;;
  phone_block container ;;;
  badge_block container ;;;
  rating_block container ;;;
  read make_doctor.

Definition candidate_single_pass (container : WebElement) : result Doctor :=
  fst (loop_body_single_pass container fresh_locals).

(** The candidate records of a sequence of containers, in input order: one
    per container whose body does not raise. *)
Definition candidates (doctor_containers : list WebElement) : list Doctor :=
  flat_map (fun container =>
              match candidate container with
              | Ok doctor => [doctor]
              | Raise _ => []
              end) doctor_containers.

(** The first occurrence of every name, in order. *)
Fixpoint first_by_name (l : list Doctor) : list Doctor :=
  match l with
  | [] => []
  | d :: rest =>
      d :: filter (fun d' => negb (String.eqb (name d') (name d))) (first_by_name rest)
  end.

(** The records whose name is not among those of [acc]. *)
Definition unseen (acc : list Doctor) (d : Doctor) : bool :=
  negb (Str.in_list (name d) (map name acc)).

(** The records with a non-empty name. *)
Definition named (l : list Doctor) : list Doctor :=
  filter (fun d => Str.truthy (name d)) l.

End Crawler.

End Main.

(** ** db.py *)

Module Db.

Section Rows.

Context {F : FloatType}.

(** A row of the table [doctors]: only [name] is declared not nullable. *)
Record Doctor : Type := mkDoctor {
  id : Z;
  name : string;
  specialty : option string;
  profile_url : option string;
  image_url : option string;
  location : option string;
  phone : option string;
  has_multiple_locations : option bool;
  is_employed_provider : option bool;
  is_accepting_new_patients : option bool;
  rating : option float;
  rating_count : option Z
}.

End Rows.

End Db.

(** ** analyze.py *)

Module Analyze.

Section Report.

Context {F : FloatType} {B : PyBuiltins}.

(** A [dict] from phone numbers to lists of rows, in insertion order. *)
Definition PhoneMap : Type := list (string * list Db.Doctor).

(** [phone_map[phone].append(doctor)] on a [defaultdict(list)]. *)
Fixpoint dict_append (phone : string) (doctor : Db.Doctor) (m : PhoneMap) : PhoneMap :=
  match m with
  | [] => [(phone, [doctor])]
  | (k, docs) :: rest =>
      if String.eqb phone k
      then (k, (docs ++ [doctor])%list) :: rest
      else (k, docs) :: dict_append phone doctor rest
  end.

(** [d[key] = value] on a [dict]. *)
Fixpoint dict_set {V : Type} (key : string) (value : V) (d : list (string * V))
  : list (string * V) :=
  match d with
  | [] => [(key, value)]
  | (k, v) :: rest =>
      if String.eqb key k
      then (k, value) :: rest
      else (k, v) :: dict_set key value rest
  end.

(** Line 29: [doc.rating and doc.rating > 0]. *)
Definition has_rating (doc : Db.Doctor) : bool :=
  match Db.rating doc with
  | None => false
  | Some r => float_truthy r && float_gt_zero r
  end.

(** Lines 30 and 50: [count / total_doctors * 100], as the exact quotient. *)
Definition percent (count total_doctors : nat) : result Q :=
  match total_doctors with
  | O => Raise ZeroDivisionError
  | _ => Ok (inject_Z (Z.of_nat count) / inject_Z (Z.of_nat total_doctors) * 100)%Q
  end.

(** Lines 33-36. *)
Definition phone_map (doctors : list Db.Doctor) : PhoneMap :=
  fold_left
    (fun m doctor =>
       match Db.phone doctor with
       | Some phone => if Str.truthy phone then dict_append phone doctor m else m
       | None => m
       end)
    doctors [].

(** Lines 38-40. *)
Definition doctors_with_shared_phones (doctors : list Db.Doctor) : PhoneMap :=
  filter (fun '(phone, docs) => (1 <? List.length docs)%nat) (phone_map doctors).

(** Line 49: [doc.has_multiple_locations] as a condition. *)
Definition multiple_locations (doc : Db.Doctor) : bool :=
  match Db.has_multiple_locations doc with
  | Some b => b
  | None => false
  end.

Record Entry : Type := mkEntry {
  entry_name : string;
  entry_profile_url : option string
}.

Record Summary : Type := mkSummary {
  total_doctors : nat;
  doctors_with_ratings : nat;
  shared_phone_numbers : nat;
  doctors_with_multiple_locations : nat
}.

Record ReportData : Type := mkReport {
  summary : Summary;
  report_shared_phone_numbers : list (string * list Entry);
  report_multiple_locations : list Entry
}.

Definition entry_of (doc : Db.Doctor) : Entry :=
  {| entry_name := Db.name doc; entry_profile_url := Db.profile_url doc |}.

(** Lines 13-94, from the list that [get_all_doctors()] returns.  The text
    of the log lines and the JSON file are left out; the two quotients of
    the log lines are evaluated where the f-strings evaluate them. *)
Definition analyze_doctors (doctors : list Db.Doctor) : result ReportData :=
  let total := List.length doctors in
  let rated := filter has_rating doctors in
  _ <~ percent (List.length rated) total ;;
  let shared := doctors_with_shared_phones doctors in
  let multiple := filter multiple_locations doctors in
  _ <~ percent (List.length multiple) total ;;
  let report_shared :=
    fold_left (fun d '(phone, docs) => dict_set phone (map entry_of docs) d) shared [] in
  let report_multiple :=
    fold_left (fun l doc => (l ++ [entry_of doc])%list) multiple [] in
  Ok {| summary :=
          {| total_doctors := total;
             doctors_with_ratings := List.length rated;
             shared_phone_numbers := List.length shared;
             doctors_with_multiple_locations := List.length multiple |};
        report_shared_phone_numbers := report_shared;
        report_multiple_locations := report_multiple |}.


(** *** Reference definitions for the properties *)

(** The first occurrence of every string, in order. *)
Fixpoint first_occurrences (l : list string) : list string :=
  match l with
  | [] => []
  | x :: rest => x :: filter (fun y => negb (String.eqb y x)) (first_occurrences rest)
  end.

Definition has_key (key : Db.Doctor -> option string) (p : string) (doc : Db.Doctor) : bool :=
  match key doc with
  | Some q => String.eqb q p
  | None => false
  end.

(** The keys of the rows where [key] is not [None], in order. *)
Definition keys (key : Db.Doctor -> option string) (doctors : list Db.Doctor)
  : list string :=
  flat_map (fun doc => match key doc with Some p => [p] | None => [] end) doctors.

(** The partition of the rows by [key], without the rows where [key] is
    [None], in the order in which the keys first occur. *)
Definition partition_by (key : Db.Doctor -> option string) (doctors : list Db.Doctor)
  : PhoneMap :=
  map (fun p => (p, filter (has_key key p) doctors))
      (first_occurrences (keys key doctors)).

(** The groups of at least two rows. *)
Definition shared_groups (key : Db.Doctor -> option string) (doctors : list Db.Doctor)
  : PhoneMap :=
  filter (fun '(p, docs) => (2 <=? List.length docs)%nat) (partition_by key doctors).

(** The phone of a row when it is present and not empty. *)
Definition nonempty_phone (doc : Db.Doctor) : option string :=
  match Db.phone doc with
  | Some p => if Str.truthy p then Some p else None
  | None => None
  end.

End Report.

End Analyze.

(** ** An instance of the builtins on decimal literals *)

Module Decimal.

Definition digit (c : ascii) : option Z :=
  let n := nat_of_ascii c in
  if ((48 <=? n) && (n <=? 57))%nat then Some (Z.of_nat (n - 48)) else None.

(** The digits after the point. *)
Fixpoint fraction (num : Z) (den : positive) (seen : bool) (s : string) : option Q :=
  match s with
  | EmptyString => if seen then Some (Qred (num # den)) else None
  | String c rest =>
      match digit c with
      | Some d => fraction (10 * num + d) (10 * den) true rest
      | None => None
      end
  end.

(** The digits before the point, and on to [fraction] at the point. *)
Fixpoint unsigned (num : Z) (seen : bool) (s : string) : option Q :=
  match s with
  | EmptyString => if seen then Some (inject_Z num) else None
  | String c rest =>
      if Ascii.eqb c "."
      then fraction num 1 seen rest
      else match digit c with
           | Some d => unsigned (10 * num + d) true rest
           | None => None
           end
  end.

Fixpoint natural (num : Z) (seen : bool) (s : string) : option Z :=
  match s with
  | EmptyString => if seen then Some num else None
  | String c rest =>
      match digit c with
      | Some d => natural (10 * num + d) true rest
      | None => None
      end
  end.

Definition signed {A : Type} (opp : A -> A) (p : string -> option A) (s : string) : option A :=
  match s with
  | String c rest =>
      if Ascii.eqb c "+" then p rest
      else if Ascii.eqb c "-" then option_map opp (p rest)
      else p s
  | EmptyString => p s
  end.

(** [float] on [sign digits . digits] between white space, with the rational
    that the literal denotes. *)
Definition float_of_string (s : string) : option Q :=
  signed Qopp (unsigned 0 false) (Str.strip s).

(** [int] on [sign digits] between white space. *)
Definition int_of_string (s : string) : option Z :=
  signed Z.opp (natural 0 false) (Str.strip s).

#[global] Instance rational : FloatType := {
  float := Q
}.

#[global] Instance builtins : PyBuiltins := {
  py_float := float_of_string;
  py_int := int_of_string;
  float_truthy := fun x => negb (Qeq_bool x 0);
  float_gt_zero := fun x => negb (Qle_bool x 0)
}.

End Decimal.

(** ** Pages given by their content *)

Module Page.

Fixpoint assoc {V : Type} (key : string) (l : list (string * V)) : option V :=
  match l with
  | [] => None
  | (k, v) :: rest => if String.eqb key k then Some v else assoc key rest
  end.

(** An element with the text [t], the attributes [attrs], the first match
    [one] and the matches [many] per selector.  As in Selenium, a selector
    that matches nothing makes [find_element] raise
    [NoSuchElementException] and [find_elements] return the empty list. *)
Definition element (t : string) (attrs : list (string * string))
  (one : list (string * WebElement)) (many : list (string * list WebElement)) : WebElement :=
  {| text := Ok t;
     get_attribute := fun a => Ok (assoc a attrs);
     find_element := fun sel =>
       match assoc sel one with
       | Some e => Ok (Some e)
       | None => Raise NoSuchElementException
       end;
     find_elements := fun sel =>
       match assoc sel many with
       | Some l => Ok l
       | None => Ok []
       end |}.

(** An element without descendants. *)
Definition leaf (t : string) (attrs : list (string * string)) : WebElement :=
  element t attrs [] [].

(** A container given by the first match per selector. *)
Definition container (one : list (string * WebElement)) : WebElement :=
  element "" [] one [].

End Page.

(** ** Sample pages and rows *)

Module Examples.

Import Main.

(** A card with a name, a profile link and a specialty, and [more]. *)
Definition card (name_text : string) (more : list (string * WebElement)) : WebElement :=
  Page.container
    ((sel_name, Page.leaf name_text [])
     :: (sel_url, Page.leaf "" [("href", "/provider/1")])
     :: (sel_specialty, Page.leaf "Cardiology" [])
     :: more).

(** A card with the name and nothing else. *)
Definition name_only : WebElement :=
  Page.container [(sel_name, Page.leaf "Dr. Jane Roe" [])].

(** A card with everything of [card] but the name. *)
Definition nameless : WebElement :=
  Page.container
    [(sel_url, Page.leaf "" [("href", "/provider/1")]);
     (sel_specialty, Page.leaf "Cardiology" [])].

(** A card with a street address and no facility element. *)
Definition address_only : WebElement :=
  card "Dr. Jane Roe" [(sel_address, Page.leaf "123 Main St" [])].

(** A rating container with a value node and no count node. *)
Definition value_only_rating : WebElement :=
  Page.element "" [] [(sel_rating_value, Page.leaf "4.8 / 5" [])] [].

Definition partial_rating : WebElement :=
  card "Dr. Jane Roe" [(sel_rating, value_only_rating)].

(** A rating container whose value is above 5. *)
Definition high_rating : WebElement :=
  Page.element "" []
    [(sel_rating_value, Page.leaf "7.5 / 5" []); (sel_rating_count, Page.leaf "(3)" [])] [].

Definition out_of_range : WebElement :=
  card "Dr. Jane Roe" [(sel_rating, high_rating)].

(** A rating container with both nodes. *)
Definition full_rating : WebElement :=
  Page.element "" []
    [(sel_rating_value, Page.leaf "4.8 / 5" []); (sel_rating_count, Page.leaf "(194)" [])] [].

Definition rated : WebElement :=
  card "Dr. Jane Roe" [(sel_rating, full_rating)].

(** A rating container whose value text is no number. *)
Definition unrated_value : WebElement :=
  Page.element "" []
    [(sel_rating_value, Page.leaf "N/A" []); (sel_rating_count, Page.leaf "(194)" [])] [].

Definition malformed_rating : WebElement :=
  card "Dr. Jane Roe" [(sel_rating, unrated_value)].

(** A card whose name element holds white space only. *)
Definition blank_name : WebElement := card "   " [].

Definition jane : WebElement := card " Dr. Jane Roe " [].
Definition john : WebElement := card "Dr. John Doe" [].

(** The record of [jane], and of a card like it with the name [n]. *)
Definition record (n : string) : Doctor :=
  {| name := n;
     specialty := Some "Cardiology";
     profile_url := Some "https://www.andalusiahealth.com/provider/1";
     image_url := None;
     location := None;
     phone := None;
     has_multiple_locations := false;
     is_employed_provider := false;
     is_accepting_new_patients := false;
     rating := None;
     rating_count := None |}.

(** The record of a card like [jane] with a rating and a count. *)
Definition rated_record (r : option Q) (n : option Z) : Doctor :=
  {| name := "Dr. Jane Roe";
     specialty := Some "Cardiology";
     profile_url := Some "https://www.andalusiahealth.com/provider/1";
     image_url := None;
     location := None;
     phone := None;
     has_multiple_locations := false;
     is_employed_provider := false;
     is_accepting_new_patients := false;
     rating := r;
     rating_count := n |}.

(** A stored row with a name and a phone. *)
Definition row (i : Z) (n : string) (p : option string) : Db.Doctor :=
  Db.mkDoctor i n None None None None p (Some false) (Some false) (Some false)
    (Some 0%Q) (Some 0).

Definition shared_rows : list Db.Doctor :=
  [row 1 "A" (Some "555-1111"); row 2 "B" (Some "555-1111"); row 3 "C" (Some "555-2222")].

Definition empty_phone_rows : list Db.Doctor :=
  [row 1 "A" (Some ""); row 2 "B" (Some "")].

End Examples.

(** ** db.py: the functions on the table *)

(** What an INSERT stores in the two columns with a numeric default,
    [rating] and [rating_count], for the value that the new object has in
    that attribute; the other columns store the attribute as it is. *)
Class Orm {F : FloatType} : Type := {
  insert_rating : option float -> option float;
  insert_rating_count : option Z -> option Z
}.

Module Store.

Section Sessions.

Context {F : FloatType} {O : Orm}.

(** The table [doctors] as the list of its rows, and the next value of the
    sequence behind the primary key.  Every function of [db.py] opens a
    session of its own on it and closes it before it returns. *)
Record Database : Type := mkDatabase {
  rows : list Db.Doctor;
  next_id : Z
}.

(** [init_db] on a database without the table: the table is created empty. *)
Definition empty : Database := {| rows := []; next_id := 1 |}.

Definition has_profile_url (u : string) (row : Db.Doctor) : bool :=
  match Db.profile_url row with
  | Some v => String.eqb v u
  | None => false
  end.

(** Line 63: [session.query(Doctor).filter_by(profile_url=u).first()]. *)
Definition first_by_profile_url (u : string) (db : Database) : option Db.Doctor :=
  find (has_profile_url u) (rows db).

(** Lines 67-69: every key of the dict is an attribute of the row and is set
    to its value; [id] is no key and stays. *)
Definition set_attributes (doctor_data : Main.Doctor) (existing : Db.Doctor) : Db.Doctor :=
  {| Db.id := Db.id existing;
     Db.name := Main.name doctor_data;
     Db.specialty := Main.specialty doctor_data;
     Db.profile_url := Main.profile_url doctor_data;
     Db.image_url := Main.image_url doctor_data;
     Db.location := Main.location doctor_data;
     Db.phone := Main.phone doctor_data;
     Db.has_multiple_locations := Some (Main.has_multiple_locations doctor_data);
     Db.is_employed_provider := Some (Main.is_employed_provider doctor_data);
     Db.is_accepting_new_patients := Some (Main.is_accepting_new_patients doctor_data);
     Db.rating := Main.rating doctor_data;
     Db.rating_count := Main.rating_count doctor_data |}.

(** Lines 73-76: the row that the commit inserts for the object made of
    the dict, under the id [i]. *)
Definition inserted (i : Z) (doctor_data : Main.Doctor) : Db.Doctor :=
  {| Db.id := i;
     Db.name := Main.name doctor_data;
     Db.specialty := Main.specialty doctor_data;
     Db.profile_url := Main.profile_url doctor_data;
     Db.image_url := Main.image_url doctor_data;
     Db.location := Main.location doctor_data;
     Db.phone := Main.phone doctor_data;
     Db.has_multiple_locations := Some (Main.has_multiple_locations doctor_data);
     Db.is_employed_provider := Some (Main.is_employed_provider doctor_data);
     Db.is_accepting_new_patients := Some (Main.is_accepting_new_patients doctor_data);
     Db.rating := insert_rating (Main.rating doctor_data);
     Db.rating_count := insert_rating_count (Main.rating_count doctor_data) |}.

(** The commit of an update: the row with the id of [existing] is written. *)
Definition write (updated : Db.Doctor) (l : list Db.Doctor) : list Db.Doctor :=
  map (fun row => if Z.eqb (Db.id row) (Db.id updated) then updated else row) l.

(** Lines 60-63: the row to update, if any. *)
Definition existing_row (doctor_data : Main.Doctor) (db : Database) : option Db.Doctor :=
  match Main.profile_url doctor_data with
  | Some u => if Str.truthy u then first_by_profile_url u db else None
  | None => None
  end.

(** Lines 47-80, on the dict that [asdict] makes of a dataclass [Doctor]: the
    id of the saved row and the database after the commit. *)
Definition save_doctor (doctor_data : Main.Doctor) (db : Database) : Z * Database :=
  match existing_row doctor_data db with
  | Some existing =>
      (Db.id existing,
       {| rows := write (set_attributes doctor_data existing) (rows db);
          next_id := next_id db |})
  | None =>
      (next_id db,
       {| rows := (rows db ++ [inserted (next_id db) doctor_data])%list;
          next_id := next_id db + 1 |})
  end.

(** Lines 82-95. *)
Definition get_all_doctors (db : Database) : list Db.Doctor := rows db.


(** main.py, lines 276-280: the loop of [main] over the crawled doctors. *)
Definition save_all (doctors : list Main.Doctor) (db : Database) : Database :=
  fold_left (fun db doctor => snd (save_doctor doctor db)) doctors db.

(** *** Reference definitions for the properties *)

(** The non-empty profile URLs of the rows, in order. *)
Definition stored_urls (l : list Db.Doctor) : list string :=
  flat_map (fun row =>
              match Db.profile_url row with
              | Some u => if Str.truthy u then [u] else []
              | None => []
              end) l.

(** The ids are distinct and below the next value of the sequence, and no
    two rows share a non-empty profile URL. *)
Definition consistent (db : Database) : Prop :=
  NoDup (map Db.id (rows db))
  /\ Forall (fun row => Db.id row < next_id db) (rows db)
  /\ NoDup (stored_urls (rows db)).


End Sessions.

End Store.

(** ** More reference definitions *)

Module Views.

(** The trimmed texts of the badges up to the first one whose text cannot
    be read. *)
Fixpoint readable_texts (badges : list WebElement) : list string :=
  match badges with
  | [] => []
  | badge :: rest =>
      match text badge with
      | Ok t => Str.strip t :: readable_texts rest
      | Raise _ => []
      end
  end.

(** The number of rows with the phone [p]. *)
Definition phone_count {F : FloatType} (p : string) (doctors : list Db.Doctor) : nat :=
  List.length (filter (Analyze.has_key Db.phone p) doctors).

(** An instance of the ORM that stores the column default 0 for [None]. *)
#[global] Instance defaults : @Orm Decimal.rational := {
  insert_rating := fun r => match r with Some x => Some x | None => Some 0%Q end;
  insert_rating_count := fun n => match n with Some x => Some x | None => Some 0 end
}.

(** Two records with one profile URL and different names. *)
Definition first_visit : Main.Doctor := Examples.record "Dr. Jane Roe".
Definition second_visit : Main.Doctor := Examples.record "Dr. Jane Roe, MD".

(** A lookup and the read of the element it finds went through. *)
Definition lookup_ok {A : Type} (found : result (option WebElement))
  (read : WebElement -> result A) : bool :=
  match found with
  | Ok (Some e) => is_ok (read e)
  | Ok None => true
  | Raise _ => false
  end.

(** Every character of the string satisfies [p]. *)
Fixpoint all_chars (p : ascii -> bool) (s : string) : bool :=
  match s with
  | EmptyString => true
  | String c rest => p c && all_chars p rest
  end.

Definition is_digit (c : ascii) : bool :=
  let n := nat_of_ascii c in ((48 <=? n) && (n <=? 57))%nat.

(** A results page with three cards, the second without a name. *)
Definition results_page : WebElement :=
  Page.element "" [] []
    [(Main.sel_containers, [Examples.jane; Examples.nameless; Examples.john])].

(** A card with the marker of a second location and no facility element. *)
Definition marker_only : WebElement :=
  Examples.card "Dr. Jane Roe"
    [(Main.sel_multiple_location, Page.leaf "Clinic +1 other location" [])].

(** A card with one badge. *)
Definition employed_card : WebElement :=
  Page.element "" []
    [(Main.sel_name, Page.leaf "Dr. Jane Roe" []);
     (Main.sel_url, Page.leaf "" [("href", "/provider/1")]);
     (Main.sel_specialty, Page.leaf "Cardiology" [])]
    [(Main.sel_badge, [Page.leaf "Employed Provider" []])].

(** A card with a phone link. *)
Definition phone_card : WebElement :=
  Examples.card "Dr. Jane Roe"
    [(Main.sel_phone, Page.leaf "" [("href", "tel:334-222-8466")])].

End Views.

(** * Properties *)

Import Main.

(** ** The monad of blocks *)

Lemma bind_ext {S A C : Type} (m : Block S A) (k1 k2 : A -> Block S C) (s : S) :
  (forall a s', k1 a s' = k2 a s') -> bind m k1 s = bind m k2 s.
Proof.
  intros H. unfold bind. destruct (m s) as [[a|e] s']; [apply H | reflexivity].
Qed.

Ltac run_block :=
  cbv beta iota zeta delta
    [bind lift assign read pass ret try_except rbind on or_raise fst snd outcome
     Str.truthy_opt fstr fresh_locals
     set_name set_url set_specialty set_image_url set_location set_facility_name
     set_multiple_locations set_street_address set_phone set_employed_provider
     set_accepts_new_patients set_rating set_rating_count
     v_name v_url v_specialty v_image_url v_location v_facility_name
     v_multiple_locations v_street_address v_phone v_employed_provider
     v_accepts_new_patients v_rating v_rating_count].

Ltac split_scrutinee :=
  match goal with
  | |- context [match ?x with _ => _ end] =>
      lazymatch x with
      | context [match _ with _ => _ end] => fail
      | _ => lazymatch type of x with
             | Locals => fail
             | _ => destruct x eqn:?
             end
      end
  end.

Ltac by_cases := repeat (run_block; try split_scrutinee); try reflexivity.

Section Steps.

Context {F : FloatType} {B : PyBuiltins}.

Lemma name_step_run (c : WebElement) (l : Locals) :
  name_step c l =
  match name_of c with
  | Ok n => (Ok tt, set_name n l)
  | Raise e => (Raise e, l)
  end.
Proof. unfold name_of, name_step. by_cases. Qed.

Lemma url_step_run (c : WebElement) (l : Locals) :
  url_step c l =
  match url_of c with
  | Ok u => (Ok tt, set_url u l)
  | Raise e => (Raise e, l)
  end.
Proof. unfold url_of, url_step. by_cases. Qed.

Lemma specialty_step_run (c : WebElement) (l : Locals) :
  specialty_step c l =
  match specialty_of c with
  | Ok s => (Ok tt, set_specialty s l)
  | Raise e => (Raise e, l)
  end.
Proof. unfold specialty_of, specialty_step. by_cases. Qed.

Lemma image_block_run (c : WebElement) (l : Locals) :
  image_block c l = (Ok tt, set_image_url (image_url_of c) l).
Proof. unfold image_url_of, image_block. by_cases. Qed.

Lemma phone_block_run (c : WebElement) (l : Locals) :
  phone_block c l = (Ok tt, set_phone (phone_of c) l).
Proof. unfold phone_of, phone_block. by_cases. Qed.

End Steps.

Section Blocks.

Context {F : FloatType} {B : PyBuiltins}.

(** The location block never raises and determines [location] and
    [multiple_locations] from the container alone. *)
Lemma location_block_run (c : WebElement) (l : Locals) :
  exists fac sa,
    location_block c l =
    (Ok tt,
     set_location (location_of c)
       (set_multiple_locations (multiple_locations_of c)
          (set_facility_name fac (set_street_address sa l)))).
Proof.
  exists (v_facility_name (snd (location_block c l))),
         (v_street_address (snd (location_block c l))).
  unfold location_of, multiple_locations_of, location_block, multiple_locations_block,
    combine_location.
  by_cases.
Qed.

(** One pass over the badges from flags [e0], [a0]: the result and the
    flags it leaves do not depend on the other locals. *)
Lemma badge_loop_run (badges : list WebElement) (e0 a0 : bool) :
  exists r e a, forall l,
    v_employed_provider l = e0 -> v_accepts_new_patients l = a0 ->
    for_each badges badge_step l =
    (r, set_accepts_new_patients a (set_employed_provider e l)).
Proof.
  revert e0 a0. induction badges as [|badge rest IH]; intros e0 a0.
  - exists (Ok tt), e0, a0. intros [] <- <-. reflexivity.
  - cbn [for_each]. unfold badge_step.
    destruct (text badge) as [t|ex] eqn:Ht.
    + destruct (IH (e0 || Str.contains "Employed Provider" (Str.strip t))%bool
                   (a0 || Str.contains "Accepts New Patients" (Str.strip t))%bool)
        as (r & e & a & H).
      exists r, e, a. intros l <- <-. run_block.
      destruct (Str.contains "Employed Provider" (Str.strip t));
        destruct (Str.contains "Accepts New Patients" (Str.strip t));
        run_block; rewrite H; cbn; rewrite ?orb_true_r, ?orb_false_r; reflexivity.
    + exists (Raise ex), e0, a0. intros [] <- <-. reflexivity.
Qed.

Lemma badge_block_run (c : WebElement) (l : Locals) :
  badge_block c l =
  (Ok tt,
   set_accepts_new_patients (accepts_new_patients_of c)
     (set_employed_provider (employed_provider_of c) l)).
Proof.
  assert (H : exists e a, forall l',
             badge_block c l' =
             (Ok tt, set_accepts_new_patients a (set_employed_provider e l'))).
  { unfold badge_block. destruct (find_elements c sel_badge) as [badges|ex] eqn:Hb.
    - destruct (badge_loop_run badges false false) as (r & e & a & H).
      exists e, a. intros l'. run_block.
      rewrite H by reflexivity. destruct r as [[]|]; reflexivity.
    - exists false, false. intros l'. reflexivity. }
  destruct H as (e & a & H).
  unfold accepts_new_patients_of, employed_provider_of. rewrite !H. reflexivity.
Qed.

Lemma rating_block_run (c : WebElement) (l : Locals) :
  rating_block c l =
  (Ok tt, set_rating_count (rating_count_of c) (set_rating (rating_of c) l)).
Proof.
  unfold rating_count_of, rating_of, rating_block, rating_value_step, rating_count_step.
  by_cases.
Qed.

(** The candidate record in terms of the steps: only the name, the profile
    link and the specialty can make the body raise. *)
Lemma candidate_run (c : WebElement) :
  candidate c =
  (n <~ name_of c ;;
   u <~ url_of c ;;
   s <~ specialty_of c ;;
   Ok {| name := n;
         specialty := s;
         profile_url := u;
         image_url := image_url_of c;
         location := location_of c;
         phone := phone_of c;
         has_multiple_locations := multiple_locations_of c;
         is_employed_provider := employed_provider_of c;
         is_accepting_new_patients := accepts_new_patients_of c;
         rating := rating_of c;
         rating_count := rating_count_of c |}).
Proof.
  unfold candidate, loop_body, bind.
  rewrite name_step_run. destruct (name_of c) as [n|e]; [|reflexivity].
  rewrite url_step_run. destruct (url_of c) as [u|e]; [|reflexivity].
  rewrite specialty_step_run. destruct (specialty_of c) as [s|e]; [|reflexivity].
  rewrite image_block_run.
  destruct (location_block_run c
              (set_image_url (image_url_of c)
                 (set_specialty s (set_url u (set_name n fresh_locals)))))
    as (fac & sa & ->).
  rewrite phone_block_run, !badge_block_run, rating_block_run.
  reflexivity.
Qed.

End Blocks.

(** ** Stripping *)

Section Strip.

Variable p : ascii -> bool.

Lemma rstrip_by_head (s : string) (c : ascii) (r : string) :
  Str.rstrip_by p s = String c r -> exists rest, s = String c rest.
Proof.
  destruct s as [|c' rest]; cbn; [discriminate|].
  destruct (Str.rstrip_by p rest); [destruct (p c')|]; intros H; inversion H; eauto.
Qed.

Lemma rstrip_by_cons (c : ascii) (rest : string) :
  Str.rstrip_by p (String c rest) =
  match Str.rstrip_by p rest with
  | EmptyString => if p c then EmptyString else String c EmptyString
  | rest' => String c rest'
  end.
Proof. reflexivity. Qed.

Lemma rstrip_by_idempotent (s : string) :
  Str.rstrip_by p (Str.rstrip_by p s) = Str.rstrip_by p s.
Proof.
  induction s as [|c rest IH]; [reflexivity|].
  rewrite rstrip_by_cons. destruct (Str.rstrip_by p rest) as [|c' r'] eqn:E.
  - destruct (p c) eqn:Hc; [reflexivity|].
    rewrite rstrip_by_cons. cbn. now rewrite Hc.
  - rewrite rstrip_by_cons, IH. reflexivity.
Qed.

Lemma lstrip_by_clean (s : string) : Str.clean_head p (Str.lstrip_by p s).
Proof.
  induction s as [|c rest IH]; cbn; [exact I|].
  destruct (p c) eqn:Hc; [exact IH | exact Hc].
Qed.

Lemma lstrip_by_fixed (s : string) : Str.clean_head p s -> Str.lstrip_by p s = s.
Proof. destruct s as [|c rest]; cbn; [reflexivity | now intros ->]. Qed.

Lemma rstrip_by_clean (s : string) : Str.clean_head p s -> Str.clean_head p (Str.rstrip_by p s).
Proof.
  intros H. destruct (Str.rstrip_by p s) as [|c r] eqn:E; [exact I|].
  apply rstrip_by_head in E as [rest ->]. exact H.
Qed.

Lemma strip_by_idempotent (s : string) :
  Str.rstrip_by p (Str.lstrip_by p (Str.rstrip_by p (Str.lstrip_by p s))) =
  Str.rstrip_by p (Str.lstrip_by p s).
Proof.
  rewrite (lstrip_by_fixed (Str.rstrip_by p (Str.lstrip_by p s))).
  - apply rstrip_by_idempotent.
  - apply rstrip_by_clean, lstrip_by_clean.
Qed.

End Strip.

Lemma strip_idempotent (s : string) : Str.strip (Str.strip s) = Str.strip s.
Proof. apply strip_by_idempotent. Qed.

Lemma truthy_non_empty (s : string) : Str.truthy s = true <-> s <> "".
Proof. destruct s; cbn; split; congruence. Qed.

Lemma split_first_piece (sep s : string) (l : list string) :
  Str.split sep s = Ok l -> exists piece pieces, l = piece :: pieces.
Proof.
  unfold Str.split. destruct sep; [discriminate|].
  destruct (Str.split_from _ _ _) as [piece pieces]. intros [= <-]. eauto.
Qed.

(** ** The loop over the containers *)

Lemma filter_filter_implied {A : Type} (f g : A -> bool) (l : list A) :
  (forall x, f x = true -> g x = true) -> filter f (filter g l) = filter f l.
Proof.
  intros H. induction l as [|x l IH]; [reflexivity|].
  cbn. destruct (g x) eqn:Hg; cbn; destruct (f x) eqn:Hf; rewrite ?IH; try reflexivity.
  apply H in Hf. congruence.
Qed.

Lemma filter_filter_both {A : Type} (f g : A -> bool) (l : list A) :
  filter f (filter g l) = filter (fun x => g x && f x) l.
Proof.
  induction l as [|x l IH]; [reflexivity|].
  cbn. destruct (g x); cbn; [destruct (f x)|]; rewrite IH; reflexivity.
Qed.

Lemma filter_all {A : Type} (f : A -> bool) (l : list A) :
  (forall x, In x l -> f x = true) -> filter f l = l.
Proof.
  intros H. induction l as [|x l IH]; [reflexivity|].
  cbn. rewrite (H x) by (left; reflexivity). f_equal. apply IH.
  intros y Hy. apply H. right. exact Hy.
Qed.

Lemma in_list_cons (x y : string) (l : list string) :
  Str.in_list x (y :: l) = String.eqb x y || Str.in_list x l.
Proof. reflexivity. Qed.

Lemma in_list_snoc (x y : string) (l : list string) :
  Str.in_list x (l ++ [y]) = Str.in_list x l || String.eqb x y.
Proof.
  unfold Str.in_list. rewrite existsb_app. cbn. now rewrite orb_false_r.
Qed.

Lemma in_list_In (x : string) (l : list string) :
  Str.in_list x l = true <-> In x l.
Proof.
  unfold Str.in_list. rewrite existsb_exists. split.
  - intros (y & Hy & E). apply String.eqb_eq in E. now subst.
  - intros H. exists x. split; [exact H | apply String.eqb_refl].
Qed.

Section Loop.

Context {F : FloatType} {B : PyBuiltins}.

Lemma for_containers_run (cs : list WebElement) (acc : list Doctor) :
  for_containers cs acc =
  (acc ++ filter (unseen acc) (first_by_name (named (candidates cs))))%list.
Proof.
  revert acc. induction cs as [|c rest IH]; intros acc.
  - cbn. now rewrite app_nil_r.
  - cbn [for_containers candidates flat_map]. fold (candidates rest).
    destruct (candidate c) as [d|e]; [|apply IH].
    unfold accepted, named. cbn [app filter].
    destruct (Str.truthy (name d)) eqn:Ht; [|apply IH].
    cbn [andb first_by_name filter]. fold (named (candidates rest)).
    unfold unseen at 1.
    destruct (Str.in_list (name d) (map name acc)) eqn:Hin; cbn [negb].
    + rewrite IH. f_equal. symmetry. apply filter_filter_implied.
      intros x Hx. unfold unseen in Hx.
      destruct (String.eqb (name x) (name d)) eqn:E; [|reflexivity].
      apply String.eqb_eq in E. rewrite E, Hin in Hx. discriminate.
    + rewrite IH, <- app_assoc. cbn [app]. do 2 f_equal.
      rewrite filter_filter_both. apply filter_ext. intros x.
      unfold unseen. rewrite map_app. cbn [map]. rewrite in_list_snoc.
      rewrite negb_orb. apply andb_comm.
Qed.

Lemma extract_run (cs : list WebElement) :
  extract cs = first_by_name (named (candidates cs)).
Proof.
  unfold extract. rewrite for_containers_run. cbn [app].
  apply filter_all. reflexivity.
Qed.

Lemma first_by_name_incl (l : list Doctor) (d : Doctor) :
  In d (first_by_name l) -> In d l.
Proof.
  induction l as [|x l IH]; [easy|].
  cbn. intros [->|H]; [now left|]. right. apply IH.
  apply filter_In in H. tauto.
Qed.

Lemma first_by_name_distinct (l : list Doctor) :
  NoDup (map name l) -> first_by_name l = l.
Proof.
  induction l as [|x l IH]; [reflexivity|].
  cbn. intros H. inversion H as [|? ? Hx Hl]; subst.
  rewrite (IH Hl). f_equal. apply filter_all. intros y Hy.
  destruct (String.eqb (name y) (name x)) eqn:E; [|reflexivity].
  apply String.eqb_eq in E. exfalso. apply Hx. rewrite <- E. now apply in_map.
Qed.

Lemma candidates_In (cs : list WebElement) (d : Doctor) :
  In d (candidates cs) -> exists c, In c cs /\ candidate c = Ok d.
Proof.
  unfold candidates. rewrite in_flat_map. intros (c & Hc & H).
  exists c. split; [exact Hc|]. destruct (candidate c); [|easy].
  destruct H as [->|[]]. reflexivity.
Qed.

Lemma candidates_app (cs1 cs2 : list WebElement) :
  candidates (cs1 ++ cs2) = (candidates cs1 ++ candidates cs2)%list.
Proof. apply flat_map_app. Qed.

Lemma name_of_form (c : WebElement) (n : string) :
  name_of c = Ok n -> n = "Unknown Doctor" \/ exists t, n = Str.strip t.
Proof.
  unfold name_of, name_step. by_cases; intros [= <-]; eauto.
Qed.

Lemma candidate_name (c : WebElement) (d : Doctor) :
  candidate c = Ok d -> name_of c = Ok (name d).
Proof.
  rewrite candidate_run. unfold rbind.
  destruct (name_of c); [|discriminate].
  destruct (url_of c); [|discriminate].
  destruct (specialty_of c); [|discriminate].
  now intros [= <-].
Qed.

Lemma candidate_rating (c : WebElement) (d : Doctor) :
  candidate c = Ok d -> rating d = rating_of c /\ rating_count d = rating_count_of c.
Proof.
  rewrite candidate_run. unfold rbind.
  destruct (name_of c); [|discriminate].
  destruct (url_of c); [|discriminate].
  destruct (specialty_of c); [|discriminate].
  now intros [= <-].
Qed.

(** Failures of the image, the location, the phone, the badges and the
    rating never reach the outer handler. *)
Lemma candidate_ok (c : WebElement) :
  is_ok (candidate c) = is_ok (name_of c) && is_ok (url_of c) && is_ok (specialty_of c).
Proof.
  rewrite candidate_run. unfold rbind.
  destruct (name_of c); [|reflexivity].
  destruct (url_of c); [|reflexivity].
  destruct (specialty_of c); reflexivity.
Qed.

End Loop.

(** ** The extractor *)

Section Extractor.

Context {F : FloatType} {B : PyBuiltins}.

(** C9: the badge block written twice acts as the block written once.  The
    second copy resets both flags and recomputes them from the same badge
    elements, so running the two copies leaves the locals that one copy
    leaves, and the candidate record equals that of the loop body with a
    single badge block. *)
Theorem badge_blocks_single_pass (container : WebElement) :
  (forall l : Locals,
      (badge_block container ;;; badge_block container) l = badge_block container l)
  /\ candidate container = candidate_single_pass container.
Proof.
  assert (H : forall l : Locals,
             (badge_block container ;;; badge_block container) l
             = badge_block container l).
  { intros l. unfold bind. rewrite !badge_block_run. reflexivity. }
  split; [exact H|].
  unfold candidate, candidate_single_pass, loop_body, loop_body_single_pass.
  f_equal. do 6 (apply bind_ext; intros ? ?).
  unfold bind at 1 2. unfold bind at 2.
  rewrite !badge_block_run. reflexivity.
Qed.

(** C10: every record that [extract] returns has a non-empty name, which is
    its own trimmed form; a container whose candidate has the empty name
    leaves no trace in the output, wherever it stands in the input. *)
Theorem extracted_names_non_empty :
  (forall (containers : list WebElement) (d : Doctor),
      In d (extract containers) -> name d <> "" /\ Str.strip (name d) = name d)
  /\ (forall (before after : list WebElement) (container : WebElement) (d : Doctor),
         candidate container = Ok d -> name d = "" ->
         extract (before ++ container :: after) = extract (before ++ after)).
Proof.
  split.
  - intros cs d Hd. rewrite extract_run in Hd.
    apply first_by_name_incl in Hd. unfold named in Hd.
    apply filter_In in Hd as [Hc Ht]. split; [now apply truthy_non_empty|].
    apply candidates_In in Hc as (c & _ & Hc).
    apply candidate_name, name_of_form in Hc as [->|[t ->]];
      [reflexivity | apply strip_idempotent].
  - intros before after c d Hc Hn. rewrite !extract_run.
    change (c :: after) with ([c] ++ after)%list.
    rewrite !candidates_app. unfold named. rewrite !filter_app.
    cbn [candidates flat_map]. rewrite Hc. cbn [app filter]. now rewrite Hn.
Qed.

(** C6, amended: the output of [extract] is the sequence of candidate
    records with a non-empty name, in input order, restricted to the first
    occurrence of each name; when these names are all distinct the output
    is that sequence itself, in input order. *)
Theorem extract_first_occurrences (containers : list WebElement) :
  extract containers = first_by_name (named (candidates containers))
  /\ (NoDup (map name (named (candidates containers))) ->
      extract containers = named (candidates containers)).
Proof.
  split; [apply extract_run|].
  intros H. rewrite extract_run. now apply first_by_name_distinct.
Qed.

(** The rating and the count in terms of the three stages of the chain. *)
Lemma rating_chain (c : WebElement) :
  (rating_of c, rating_count_of c) =
  match find_element c sel_rating with
  | Ok (Some rating_element) =>
      match rating_value_outcome rating_element with
      | Ok v =>
          match rating_count_outcome rating_element with
          | Ok n => (v, n)
          | Raise _ => (v, None)
          end
      | Raise _ => (None, None)
      end
  | Ok None => (None, None)
  | Raise _ => (None, None)
  end.
Proof.
  unfold rating_of, rating_count_of, rating_value_outcome, rating_count_outcome,
    rating_block, rating_value_step, rating_count_step.
  by_cases.
Qed.

(** C3, amended: an exception in the lookup of the rating container or in
    the lookup or parse of the value node leaves both [rating] and
    [rating_count] absent; an exception in the lookup or parse of the count
    node leaves [rating_count] absent and [rating] as the value stage set
    it. *)
Theorem rating_chain_failure (container : WebElement) (d : Doctor) :
  candidate container = Ok d ->
  (forall e, find_element container sel_rating = Raise e ->
             rating d = None /\ rating_count d = None)
  /\ (forall rating_element e,
         find_element container sel_rating = Ok (Some rating_element) ->
         rating_value_outcome rating_element = Raise e ->
         rating d = None /\ rating_count d = None)
  /\ (forall rating_element v e,
         find_element container sel_rating = Ok (Some rating_element) ->
         rating_value_outcome rating_element = Ok v ->
         rating_count_outcome rating_element = Raise e ->
         rating d = v /\ rating_count d = None).
Proof.
  intros Hd. apply candidate_rating in Hd as [-> ->].
  pose proof (rating_chain container) as H.
  split; [|split].
  - intros e He. rewrite He in H. now inversion H.
  - intros re e Hc Hv. rewrite Hc, Hv in H. now inversion H.
  - intros re v e Hc Hv Hn. rewrite Hc, Hv, Hn in H. now inversion H.
Qed.

(** C7, amended: when the text of the value node parses to a number, the
    record carries that number as its rating, whatever its range; when the
    text does not parse, the rating is absent. *)
Theorem rating_passed_through
  (container rating_element e : WebElement) (rating_text : string) (d : Doctor) :
  candidate container = Ok d ->
  find_element container sel_rating = Ok (Some rating_element) ->
  find_element rating_element sel_rating_value = Ok (Some e) ->
  text e = Ok rating_text ->
  (forall v, parse_rating rating_text = Ok v -> rating d = Some v)
  /\ (forall ex, parse_rating rating_text = Raise ex -> rating d = None).
Proof.
  intros Hd Hc Hv Ht. apply candidate_rating in Hd as [-> _].
  pose proof (rating_chain container) as H. rewrite Hc in H.
  unfold rating_value_outcome, rating_value_step in H.
  revert H. run_block. rewrite Hv. run_block. rewrite Ht. run_block.
  intros H. split; intros v Hp; rewrite Hp in H; revert H; run_block;
    destruct (rating_count_outcome rating_element); now intros [= -> _].
Qed.

End Extractor.

(** ** The extractor on sample pages *)

Import Examples.

(** C1: a card with a name and no optional sub-element.  The lookup of the
    profile link raises, nothing catches it before the handler of the whole
    container, and the card is discarded: no record with the name and absent
    optional fields comes out. *)
Theorem optional_lookup_failure_discards :
  name_of name_only = Ok "Dr. Jane Roe"
  /\ candidate name_only = Raise NoSuchElementException
  /\ extract [name_only] = [].
Proof. repeat apply conj; vm_compute; reflexivity. Qed.

(** C4: a card without a name element.  The name lookup raises, the
    sentinel is not substituted, and the card is discarded. *)
Theorem missing_name_discards :
  find_element nameless sel_name = Raise NoSuchElementException
  /\ candidate nameless = Raise NoSuchElementException
  /\ extract [nameless] = [].
Proof. repeat apply conj; vm_compute; reflexivity. Qed.

(** The sentinel is what the name step assigns when the lookup returns
    [None] instead of raising. *)
Lemma name_sentinel {F : FloatType} (c : WebElement) :
  find_element c sel_name = Ok None -> name_of c = Ok "Unknown Doctor".
Proof. intros H. unfold name_of, name_step. run_block. rewrite H. reflexivity. Qed.

(** C5: a card with a street address and no facility element.  The facility
    lookup raises inside the [try] of the location, the address is never
    read, and the location is absent instead of being the address alone. *)
Theorem missing_facility_loses_address :
  find_element address_only sel_facility = Raise NoSuchElementException
  /\ find_element address_only sel_address = Ok (Some (Page.leaf "123 Main St" []))
  /\ candidate address_only = Ok (record "Dr. Jane Roe")
  /\ location (record "Dr. Jane Roe") = None.
Proof. repeat apply conj; vm_compute; reflexivity. Qed.

(** C3 as stated fails: the count node is missing, its lookup raises, and
    the record keeps the rating parsed before. *)
Lemma rating_partial_result :
  find_element partial_rating sel_rating = Ok (Some value_only_rating)
  /\ rating_count_outcome value_only_rating = Raise NoSuchElementException
  /\ candidate partial_rating = Ok (rated_record (Some (24 # 5)%Q) None)
  /\ rating (rated_record (Some (24 # 5)%Q) None) <> None.
Proof. repeat apply conj; vm_compute; try reflexivity; discriminate. Qed.

Lemma rating_chain_failure_witness :
  (rating (record "Dr. Jane Roe") = None /\ rating_count (record "Dr. Jane Roe") = None)
  /\ (rating (rated_record None None) = None /\ rating_count (rated_record None None) = None)
  /\ (rating (rated_record (Some (24 # 5)%Q) None) = Some (24 # 5)%Q
      /\ rating_count (rated_record (Some (24 # 5)%Q) None) = None).
Proof.
  assert (H1 : candidate jane = Ok (record "Dr. Jane Roe")) by (vm_compute; reflexivity).
  assert (H2 : candidate malformed_rating = Ok (rated_record None None))
    by (vm_compute; reflexivity).
  assert (H3 : candidate partial_rating = Ok (rated_record (Some (24 # 5)%Q) None))
    by (vm_compute; reflexivity).
  split; [|split].
  - apply (proj1 (rating_chain_failure jane _ H1) NoSuchElementException).
    vm_compute; reflexivity.
  - apply (proj1 (proj2 (rating_chain_failure malformed_rating _ H2))
             unrated_value ValueError); vm_compute; reflexivity.
  - apply (proj2 (proj2 (rating_chain_failure partial_rating _ H3))
             value_only_rating (Some (24 # 5)%Q) NoSuchElementException);
      vm_compute; reflexivity.
Defined.

(** C7 as stated fails: the value text parses to 7.5, above 5, and the
    record carries 7.5. *)
Lemma rating_above_range_kept :
  parse_rating "7.5 / 5" = Ok (15 # 2)%Q
  /\ ~ (0 <= 15 # 2 <= 5)%Q
  /\ candidate out_of_range = Ok (rated_record (Some (15 # 2)%Q) (Some 3))
  /\ rating (rated_record (Some (15 # 2)%Q) (Some 3)) <> None.
Proof.
  repeat apply conj; try (vm_compute; reflexivity); try discriminate.
  intros [_ H]. apply H. reflexivity.
Qed.

Lemma rating_passed_through_witness :
  rating (rated_record (Some (15 # 2)%Q) (Some 3)) = Some (15 # 2)%Q
  /\ rating (rated_record None None) = None.
Proof.
  assert (H1 : candidate out_of_range = Ok (rated_record (Some (15 # 2)%Q) (Some 3)))
    by (vm_compute; reflexivity).
  assert (H2 : candidate malformed_rating = Ok (rated_record None None))
    by (vm_compute; reflexivity).
  split.
  - apply (proj1 (rating_passed_through out_of_range high_rating
                    (Page.leaf "7.5 / 5" []) "7.5 / 5" _ H1 eq_refl eq_refl eq_refl)).
    vm_compute; reflexivity.
  - apply (proj2 (rating_passed_through malformed_rating unrated_value
                    (Page.leaf "N/A" []) "N/A" _ H2 eq_refl eq_refl eq_refl) ValueError).
    vm_compute; reflexivity.
Defined.

(** C6 as stated fails: a card whose name is blank is a candidate, the first
    of its name, and is not in the output. *)
Lemma blank_candidate_not_extracted :
  candidates [blank_name] = [record ""]
  /\ first_by_name (candidates [blank_name]) = [record ""]
  /\ extract [blank_name] = []
  /\ extract [blank_name] <> first_by_name (candidates [blank_name]).
Proof. repeat apply conj; vm_compute; try reflexivity; discriminate. Qed.

Lemma extract_first_occurrences_witness :
  NoDup (map name (named (candidates [jane; john])))
  /\ extract [jane; john] = named (candidates [jane; john]).
Proof.
  assert (H : NoDup (map name (named (candidates [jane; john])))).
  { vm_compute. repeat constructor; cbn; intuition discriminate. }
  split; [exact H | exact (proj2 (extract_first_occurrences [jane; john]) H)].
Defined.

Lemma extracted_names_non_empty_witness :
  (name (record "Dr. Jane Roe") <> ""
   /\ Str.strip (name (record "Dr. Jane Roe")) = name (record "Dr. Jane Roe"))
  /\ extract ([jane] ++ blank_name :: [john]) = extract ([jane] ++ [john]).
Proof.
  assert (E : extract [jane] = [record "Dr. Jane Roe"]) by (vm_compute; reflexivity).
  assert (HIn : In (record "Dr. Jane Roe") (extract [jane]))
    by (rewrite E; left; reflexivity).
  assert (Hc : candidate blank_name = Ok (record "")) by (vm_compute; reflexivity).
  split.
  - exact (proj1 extracted_names_non_empty [jane] _ HIn).
  - exact (proj2 extracted_names_non_empty [jane] [john] blank_name _ Hc eq_refl).
Defined.

(** ** The aggregator *)

Import Analyze.

Lemma first_occurrences_In (x : string) (l : list string) :
  In x (first_occurrences l) <-> In x l.
Proof.
  induction l as [|a l IH]; [reflexivity|].
  cbn. rewrite filter_In, IH. split.
  - tauto.
  - intros [->|H]; [now left|].
    destruct (String.eqb x a) eqn:E.
    + apply String.eqb_eq in E. now left.
    + right. split; [exact H | reflexivity].
Qed.

Lemma first_occurrences_NoDup (l : list string) : NoDup (first_occurrences l).
Proof.
  induction l as [|a l IH]; cbn; constructor.
  - rewrite filter_In, String.eqb_refl. intros [_ H]. discriminate.
  - now apply NoDup_filter.
Qed.

Lemma first_occurrences_snoc (l : list string) (p : string) :
  first_occurrences (l ++ [p]) =
  if Str.in_list p l then first_occurrences l else (first_occurrences l ++ [p])%list.
Proof.
  induction l as [|a l IH]; [reflexivity|].
  cbn [app first_occurrences]. rewrite IH, in_list_cons.
  destruct (Str.in_list p l).
  - now rewrite orb_true_r.
  - rewrite orb_false_r, filter_app. cbn [filter].
    destruct (String.eqb p a); cbn [negb]; [now rewrite app_nil_r | reflexivity].
Qed.

Lemma in_list_first_occurrences (p : string) (l : list string) :
  Str.in_list p (first_occurrences l) = Str.in_list p l.
Proof.
  apply eq_true_iff_eq. rewrite !in_list_In. apply first_occurrences_In.
Qed.

Section Aggregator.

Context {F : FloatType}.

Lemma dict_append_groups (p : string) (d : Db.Doctor) (f : string -> list Db.Doctor)
  (K : list string) :
  NoDup K ->
  dict_append p d (map (fun q => (q, f q)) K) =
  if Str.in_list p K
  then map (fun q => (q, if String.eqb q p then (f q ++ [d])%list else f q)) K
  else (map (fun q => (q, f q)) K ++ [(p, [d])])%list.
Proof.
  induction K as [|k K IH]; intros HK; [reflexivity|].
  inversion HK as [|? ? Hk HK']; subst.
  cbn [map dict_append]. rewrite in_list_cons.
  destruct (String.eqb p k) eqn:E.
  - apply String.eqb_eq in E. subst k. cbn [orb]. rewrite String.eqb_refl. f_equal.
    apply map_ext_in. intros q Hq.
    destruct (String.eqb q p) eqn:E; [|reflexivity].
    apply String.eqb_eq in E. subst q. contradiction.
  - cbn [orb]. rewrite (IH HK'), String.eqb_sym, E.
    destruct (Str.in_list p K); reflexivity.
Qed.

Lemma keys_cons (key : Db.Doctor -> option string) (d : Db.Doctor)
  (doctors : list Db.Doctor) :
  keys key (d :: doctors) =
  match key d with
  | Some p => p :: keys key doctors
  | None => keys key doctors
  end.
Proof. unfold keys. cbn [flat_map]. now destruct (key d). Qed.

Lemma keys_snoc (key : Db.Doctor -> option string) (d : Db.Doctor)
  (doctors : list Db.Doctor) :
  keys key (doctors ++ [d]) =
  match key d with
  | Some p => (keys key doctors ++ [p])%list
  | None => keys key doctors
  end.
Proof.
  unfold keys. rewrite flat_map_app. cbn [flat_map].
  destruct (key d); cbn [app]; [reflexivity | apply app_nil_r].
Qed.

Lemma filter_absent_key (key : Db.Doctor -> option string) (p : string)
  (doctors : list Db.Doctor) :
  Str.in_list p (keys key doctors) = false -> filter (has_key key p) doctors = [].
Proof.
  induction doctors as [|d ds IH]; [reflexivity|].
  rewrite keys_cons. cbn [filter]. unfold has_key at 1.
  destruct (key d) as [q|]; [|exact IH].
  rewrite in_list_cons, (String.eqb_sym q p).
  destruct (String.eqb p q); [discriminate | exact IH].
Qed.

Lemma partition_by_snoc (key : Db.Doctor -> option string) (doctors : list Db.Doctor)
  (d : Db.Doctor) :
  partition_by key (doctors ++ [d]) =
  match key d with
  | Some p => dict_append p d (partition_by key doctors)
  | None => partition_by key doctors
  end.
Proof.
  unfold partition_by. rewrite keys_snoc.
  destruct (key d) as [p|] eqn:Hd.
  - rewrite first_occurrences_snoc.
    rewrite (dict_append_groups p d (fun q => filter (has_key key q) doctors))
      by apply first_occurrences_NoDup.
    rewrite in_list_first_occurrences.
    destruct (Str.in_list p (keys key doctors)) eqn:Hin.
    + apply map_ext. intros q. rewrite filter_app. cbn [filter].
      unfold has_key at 2. rewrite Hd, (String.eqb_sym p q).
      destruct (String.eqb q p); [reflexivity | now rewrite app_nil_r].
    + rewrite map_app. cbn [map]. f_equal.
      * apply map_ext_in. intros q Hq. rewrite filter_app. cbn [filter].
        unfold has_key at 2. rewrite Hd.
        destruct (String.eqb p q) eqn:E; [|now rewrite app_nil_r].
        apply String.eqb_eq in E. subst q.
        apply (proj1 (first_occurrences_In _ _)) in Hq.
        apply (proj2 (in_list_In _ _)) in Hq. rewrite Hq in Hin. discriminate.
      * rewrite filter_app, (filter_absent_key key p doctors Hin). cbn [filter app].
        unfold has_key. now rewrite Hd, String.eqb_refl.
  - apply map_ext. intros q. rewrite filter_app. cbn [filter].
    unfold has_key at 2. rewrite Hd. now rewrite app_nil_r.
Qed.

Lemma phone_map_snoc (doctors : list Db.Doctor) (d : Db.Doctor) :
  phone_map (doctors ++ [d]) =
  match nonempty_phone d with
  | Some p => dict_append p d (phone_map doctors)
  | None => phone_map doctors
  end.
Proof.
  unfold phone_map, nonempty_phone. rewrite fold_left_app. cbn [fold_left].
  destruct (Db.phone d) as [p|]; [destruct (Str.truthy p)|]; reflexivity.
Qed.

(** The dictionary built by the loop is the partition of the rows by their
    non-empty phone. *)
Lemma phone_map_run (doctors : list Db.Doctor) :
  phone_map doctors = partition_by nonempty_phone doctors.
Proof.
  induction doctors as [|d doctors IH] using rev_ind; [reflexivity|].
  now rewrite phone_map_snoc, partition_by_snoc, IH.
Qed.

Lemma doctors_with_shared_phones_run (doctors : list Db.Doctor) :
  doctors_with_shared_phones doctors = shared_groups nonempty_phone doctors.
Proof.
  unfold doctors_with_shared_phones, shared_groups. rewrite phone_map_run.
  apply filter_ext. now intros [p docs].
Qed.

Context {B : PyBuiltins}.

(** C2: on the empty list the first quotient of the log lines divides by
    zero, and [analyze_doctors] raises instead of returning a report with
    [total_doctors = 0] and percentages 0. *)
Theorem empty_record_set_raises :
  percent 0 0 = Raise ZeroDivisionError
  /\ analyze_doctors [] = Raise ZeroDivisionError.
Proof. split; reflexivity. Qed.

(** On a list that is not empty [analyze_doctors] returns a report. *)
Lemma analyze_doctors_ok (doctors : list Db.Doctor) :
  doctors <> [] -> is_ok (analyze_doctors doctors) = true.
Proof.
  destruct doctors as [|d ds]; [congruence|]. intros _. reflexivity.
Qed.

End Aggregator.

(** C8, amended: the shared phone groups are the partition of the rows by
    phone value, without the rows whose phone is absent or empty, restricted
    to the groups of at least two rows, keyed by phone value in the order in
    which the values first occur; for the phones 555-1111, 555-1111 and
    555-2222 that is the single group of 555-1111 with its two rows. *)
Theorem shared_phone_groups :
  (forall (F : FloatType) (doctors : list Db.Doctor),
      doctors_with_shared_phones doctors = shared_groups nonempty_phone doctors)
  /\ doctors_with_shared_phones shared_rows =
     [("555-1111", [row 1 "A" (Some "555-1111"); row 2 "B" (Some "555-1111")])].
Proof.
  split; [intros F doctors; apply doctors_with_shared_phones_run|].
  vm_compute. reflexivity.
Qed.

(** C8 as stated fails: two rows whose phone is present and empty make a
    group of two under the partition by present phones, and the code has no
    group for them. *)
Lemma empty_phone_not_grouped :
  shared_groups Db.phone empty_phone_rows = [("", empty_phone_rows)]
  /\ doctors_with_shared_phones empty_phone_rows = []
  /\ doctors_with_shared_phones empty_phone_rows <> shared_groups Db.phone empty_phone_rows.
Proof. repeat apply conj; vm_compute; try reflexivity; discriminate. Qed.

(** ** The location rule *)

Section Location.

Context {F : FloatType} {B : PyBuiltins}.

(** When both elements are found, the location follows the rule of lines
    132-138 on the two trimmed texts. *)
Lemma location_of_found (c facility address : WebElement) (tf ta : string) :
  find_element c sel_facility = Ok (Some facility) -> text facility = Ok tf ->
  find_element c sel_address = Ok (Some address) -> text address = Ok ta ->
  location_of c =
  if Str.truthy (Str.strip tf) && Str.truthy (Str.strip ta)
  then Some (Str.strip tf ++ ": " ++ Str.strip ta)
  else if Str.truthy (Str.strip ta) then Some (Str.strip ta)
  else if Str.truthy (Str.strip tf) then Some (Str.strip tf)
  else None.
Proof.
  intros Hf Htf Ha Hta.
  unfold location_of, location_block, multiple_locations_block, combine_location.
  rewrite Hf, Ha. run_block. rewrite Htf, Hta. by_cases.
Qed.

(** A facility lookup that raises leaves the location absent, whatever the
    address element holds. *)
Lemma location_of_facility_raise (c : WebElement) (e : exn) :
  find_element c sel_facility = Raise e -> location_of c = None.
Proof.
  intros Hf.
  unfold location_of, location_block, multiple_locations_block, combine_location.
  rewrite Hf. by_cases.
Qed.

(** So does an address lookup that raises, whatever the facility element
    holds. *)
Lemma location_of_address_raise (c : WebElement) (e : exn) :
  find_element c sel_address = Raise e -> location_of c = None.
Proof.
  intros Ha.
  unfold location_of, location_block, multiple_locations_block, combine_location.
  rewrite Ha. by_cases.
Qed.

End Location.

(** ** The examples of the specification *)

Example rating_and_count_parsed :
  candidate rated = Ok (rated_record (Some (24 # 5)%Q) (Some 194)).
Proof. vm_compute. reflexivity. Qed.

Example malformed_rating_absent :
  candidate malformed_rating = Ok (rated_record None None).
Proof. vm_compute. reflexivity. Qed.

Example relative_url_prefixed :
  url_of (Page.container [(sel_url, Page.leaf "" [("href", "/provider/123")])])
  = Ok (Some "https://www.andalusiahealth.com/provider/123").
Proof. vm_compute. reflexivity. Qed.

Example absolute_url_unchanged :
  url_of (Page.container [(sel_url, Page.leaf "" [("href", "https://example.com/provider/123")])])
  = Ok (Some "https://example.com/provider/123").
Proof. vm_compute. reflexivity. Qed.

Example employed_badge_only :
  let c := Page.element "" [] [] [(sel_badge, [Page.leaf "Employed Provider" []])] in
  (employed_provider_of c, accepts_new_patients_of c) = (true, false).
Proof. vm_compute. reflexivity. Qed.

Example both_badges :
  let c := Page.element "" [] []
             [(sel_badge, [Page.leaf "Accepts New Patients" [];
                           Page.leaf " Employed Provider " []])] in
  (employed_provider_of c, accepts_new_patients_of c) = (true, true).
Proof. vm_compute. reflexivity. Qed.

Example phone_scheme_stripped :
  phone_of (Page.container [(sel_phone, Page.leaf "" [("href", "tel:334-222-8466")])])
  = Some "334-222-8466".
Proof. vm_compute. reflexivity. Qed.

Example facility_and_address :
  location_of (Page.container [(sel_facility, Page.leaf "Clinic" []);
                               (sel_address, Page.leaf " 123 Main St " [])])
  = Some "Clinic: 123 Main St".
Proof. vm_compute. reflexivity. Qed.

Example same_name_twice :
  extract [jane; address_only; john] = [record "Dr. Jane Roe"; record "Dr. John Doe"].
Proof. vm_compute. reflexivity. Qed.

(** * Further properties *)

Import Views.

(** ** Batches of containers *)

Section Batches.

Context {F : FloatType} {B : PyBuiltins}.

Lemma for_containers_app (cs1 cs2 : list WebElement) (acc : list Doctor) :
  for_containers (cs1 ++ cs2) acc = for_containers cs2 (for_containers cs1 acc).
Proof.
  revert acc. induction cs1 as [|c cs1 IH]; intros acc; [reflexivity|].
  cbn [app for_containers].
  destruct (candidate c) as [d|e]; [destruct (accepted d acc)|]; apply IH.
Qed.

Lemma candidates_length (cs : list WebElement) :
  (List.length (candidates cs) <= List.length cs)%nat.
Proof.
  induction cs as [|c cs IH]; [apply Nat.le_refl|].
  cbn [candidates flat_map]. fold (candidates cs). rewrite length_app.
  destruct (candidate c); cbn [List.length Nat.add]; lia.
Qed.

Lemma first_by_name_length (l : list Doctor) :
  (List.length (first_by_name l) <= List.length l)%nat.
Proof.
  induction l as [|d l IH]; [apply Nat.le_refl|].
  cbn [first_by_name List.length].
  pose proof (filter_length_le (fun d' => negb (String.eqb (name d') (name d)))
                (first_by_name l)).
  lia.
Qed.

Lemma extract_length (cs : list WebElement) :
  (List.length (extract cs) <= List.length cs)%nat.
Proof.
  rewrite extract_run.
  pose proof (first_by_name_length (named (candidates cs))).
  pose proof (filter_length_le (fun d => Str.truthy (name d)) (candidates cs)).
  pose proof (candidates_length cs). unfold named in *. lia.
Qed.

Lemma extract_In (cs : list WebElement) (d : Doctor) :
  In d (extract cs) -> exists c, In c cs /\ candidate c = Ok d.
Proof.
  rewrite extract_run. intros H. apply first_by_name_incl in H.
  unfold named in H. apply filter_In in H as [H _]. now apply candidates_In.
Qed.

Lemma first_by_name_NoDup (l : list Doctor) : NoDup (map name (first_by_name l)).
Proof.
  induction l as [|d l IH]; [constructor|].
  cbn [first_by_name map]. constructor.
  - rewrite in_map_iff. intros (x & Hx & Hin). apply filter_In in Hin as [_ Hin].
    rewrite Hx, String.eqb_refl in Hin. discriminate.
  - clear -IH. induction (first_by_name l) as [|x xs IHx]; [constructor|].
    cbn [filter]. inversion IH as [|? ? Hx Hxs]; subst.
    destruct (negb (String.eqb (name x) (name d))); [|now apply IHx].
    cbn [map]. constructor; [|now apply IHx].
    rewrite in_map_iff. intros (y & Hy & Hin). apply filter_In in Hin as [Hin _].
    apply Hx. rewrite <- Hy. now apply in_map.
Qed.

Lemma unseen_self (l : list Doctor) : filter (unseen l) l = [].
Proof.
  assert (H : forall m, (forall x, In x m -> In x l) -> filter (unseen l) m = []).
  { induction m as [|x m IH]; intros Hm; [reflexivity|].
    cbn [filter]. unfold unseen at 1.
    assert (Hx : Str.in_list (name x) (map name l) = true).
    { apply in_list_In, in_map, Hm. now left. }
    rewrite Hx. cbn [negb]. apply IH. intros y Hy. apply Hm. now right. }
  apply H. auto.
Qed.

Lemma extract_app (cs1 cs2 : list WebElement) :
  extract (cs1 ++ cs2) = (extract cs1 ++ filter (unseen (extract cs1)) (extract cs2))%list.
Proof.
  unfold extract at 1. rewrite for_containers_app. fold (extract cs1).
  rewrite for_containers_run, <- extract_run. reflexivity.
Qed.

(** X1: the lookup of the containers is the only thing that makes
    [extract_doctor_info] raise.  When it returns the containers, the
    function returns the records of [extract]: at most one per container,
    each the candidate of one of the containers. *)
Theorem batch_never_aborts (shadow_root : WebElement) :
  (forall e, find_elements shadow_root sel_containers = Raise e ->
             extract_doctor_info shadow_root = Raise e)
  /\ (forall cs, find_elements shadow_root sel_containers = Ok cs ->
        extract_doctor_info shadow_root = Ok (extract cs)
        /\ (List.length (extract cs) <= List.length cs)%nat
        /\ forall d, In d (extract cs) -> exists c, In c cs /\ candidate c = Ok d).
Proof.
  unfold extract_doctor_info. split.
  - intros e ->. reflexivity.
  - intros cs ->. split; [reflexivity|]. split; [apply extract_length|].
    apply extract_In.
Qed.

(** X2: no two records of the output of [extract] have the same name. *)
Theorem extracted_names_distinct (cs : list WebElement) :
  NoDup (map name (extract cs)).
Proof. rewrite extract_run. apply first_by_name_NoDup. Qed.

(** X3: a second batch adds to the output of the first its own output
    without the names that the first batch has accepted. *)
Theorem extract_of_two_batches (cs1 cs2 : list WebElement) :
  extract (cs1 ++ cs2) = (extract cs1 ++ filter (unseen (extract cs1)) (extract cs2))%list.
Proof. apply extract_app. Qed.

(** X4: feeding the same containers a second time adds nothing. *)
Theorem extract_repeated_batch (cs : list WebElement) :
  extract (cs ++ cs) = extract cs.
Proof. rewrite extract_app, unseen_self. apply app_nil_r. Qed.

(** X5: a container whose body raises is skipped: the output is that of the
    sequence without it. *)
Theorem raising_container_skipped
  (before after : list WebElement) (container : WebElement) (e : exn) :
  candidate container = Raise e ->
  extract (before ++ container :: after) = extract (before ++ after).
Proof.
  intros Hc. rewrite !extract_run.
  change (container :: after) with ([container] ++ after)%list.
  rewrite !candidates_app. cbn [candidates flat_map]. now rewrite Hc.
Qed.

(** X6: a container yields a candidate exactly when the lookups of the
    name, the profile link and the specialty, and the reads of what they
    find, go through; no other lookup decides it. *)
Theorem candidate_exists_iff (c : WebElement) :
  is_ok (candidate c) =
  lookup_ok (find_element c sel_name) text
  && lookup_ok (find_element c sel_url) (fun e => get_attribute e "href")
  && lookup_ok (find_element c sel_specialty) text.
Proof.
  rewrite candidate_ok. unfold name_of, url_of, specialty_of, name_step, url_step,
    specialty_step, lookup_ok, is_ok.
  by_cases.
Qed.

End Batches.

Lemma batch_never_aborts_witness :
  extract_doctor_info results_page = Ok (extract [jane; nameless; john])
  /\ (List.length (extract [jane; nameless; john]) <= 3)%nat.
Proof.
  assert (H : find_elements results_page sel_containers = Ok [jane; nameless; john])
    by reflexivity.
  destruct (proj2 (batch_never_aborts results_page) _ H) as (H1 & H2 & _).
  split; [exact H1 | exact H2].
Defined.

Lemma raising_container_skipped_witness :
  extract ([jane] ++ nameless :: [john]) = extract ([jane] ++ [john]).
Proof.
  assert (H : candidate nameless = Raise NoSuchElementException)
    by (vm_compute; reflexivity).
  exact (raising_container_skipped [jane] [john] nameless _ H).
Defined.

(** ** The fields of a candidate *)

Section Fields.

Context {F : FloatType} {B : PyBuiltins}.

Lemma candidate_fields (c : WebElement) (d : Doctor) :
  candidate c = Ok d ->
  url_of c = Ok (profile_url d)
  /\ phone d = phone_of c
  /\ has_multiple_locations d = multiple_locations_of c
  /\ is_employed_provider d = employed_provider_of c
  /\ is_accepting_new_patients d = accepts_new_patients_of c.
Proof.
  rewrite candidate_run. unfold rbind.
  destruct (name_of c); [|discriminate].
  destruct (url_of c); [|discriminate].
  destruct (specialty_of c); [|discriminate].
  intros [= <-]. repeat split.
Qed.


(** X8: the flag of a second location is read off the marker element alone:
    it is set exactly when the marker is found and its text holds
    [+1 other location], whatever becomes of the facility and address
    lookups that follow in the same [try]. *)
Theorem multiple_locations_flag (c : WebElement) (d : Doctor) :
  candidate c = Ok d ->
  has_multiple_locations d =
  match find_element c sel_multiple_location with
  | Ok (Some e) =>
      match text e with
      | Ok t => Str.contains "+1 other location" t
      | Raise _ => false
      end
  | _ => false
  end.
Proof.
  intros Hd. apply candidate_fields in Hd as (_ & _ & -> & _).
  unfold multiple_locations_of, location_block, multiple_locations_block,
    combine_location.
  by_cases.
Qed.

(** One badge: each flag is its value before or the presence of its marker
    in the trimmed text. *)
Lemma badge_step_flags (badge : WebElement) (l : Locals) :
  match text badge with
  | Ok t =>
      exists s, badge_step badge l = (Ok tt, s)
                /\ v_employed_provider s =
                   v_employed_provider l
                   || Str.contains "Employed Provider" (Str.strip t)
                /\ v_accepts_new_patients s =
                   v_accepts_new_patients l
                   || Str.contains "Accepts New Patients" (Str.strip t)
  | Raise e => badge_step badge l = (Raise e, l)
  end.
Proof.
  unfold badge_step. destruct (text badge) as [t|e]; [|reflexivity].
  destruct l. run_block.
  destruct (Str.contains "Employed Provider" (Str.strip t));
    destruct (Str.contains "Accepts New Patients" (Str.strip t));
    eexists; (split; [reflexivity|]); cbn;
    rewrite ?orb_true_r, ?orb_false_r; split; reflexivity.
Qed.

(** One pass over the badges: each flag is its value before or the
    presence of its marker in a readable text. *)
Lemma badge_loop_flags (badges : list WebElement) (l : Locals) :
  v_employed_provider (snd (for_each badges badge_step l)) =
  v_employed_provider l
  || existsb (Str.contains "Employed Provider") (readable_texts badges)
  /\ v_accepts_new_patients (snd (for_each badges badge_step l)) =
     v_accepts_new_patients l
     || existsb (Str.contains "Accepts New Patients") (readable_texts badges).
Proof.
  revert l. induction badges as [|badge rest IH]; intros l.
  - cbn. now rewrite !orb_false_r.
  - cbn [for_each readable_texts]. unfold bind.
    pose proof (badge_step_flags badge l) as H.
    destruct (text badge) as [t|e].
    + destruct H as (s & -> & He & Ha). destruct (IH s) as [-> ->].
      rewrite He, Ha. cbn [existsb]. rewrite !orb_assoc. split; reflexivity.
    + rewrite H. cbn. now rewrite !orb_false_r.
Qed.

(** X9: with the badge elements found, each status flag of the candidate is
    set exactly when its marker occurs in the trimmed text of a badge that
    comes before the first badge whose text cannot be read; the two flags
    do not depend on each other.  When the lookup of the badges raises,
    both flags are false. *)
Theorem badge_flags (c : WebElement) (d : Doctor) :
  candidate c = Ok d ->
  (forall badges, find_elements c sel_badge = Ok badges ->
     is_employed_provider d =
     existsb (Str.contains "Employed Provider") (readable_texts badges)
     /\ is_accepting_new_patients d =
        existsb (Str.contains "Accepts New Patients") (readable_texts badges))
  /\ (forall e, find_elements c sel_badge = Raise e ->
        is_employed_provider d = false /\ is_accepting_new_patients d = false).
Proof.
  intros Hd. apply candidate_fields in Hd as (_ & _ & _ & -> & ->).
  unfold employed_provider_of, accepts_new_patients_of, badge_block. split.
  - intros badges Hb.
    cbv beta iota delta [bind assign try_except lift pass ret]. rewrite Hb.
    cbv beta iota.
    match goal with
    | |- context [for_each badges badge_step ?s] =>
        pose proof (badge_loop_flags badges s) as [He Ha];
        destruct (for_each badges badge_step s) as [[u|e] s']
    end; cbn [snd] in *; rewrite He, Ha; split; reflexivity.
  - intros e He.
    cbv beta iota delta [bind assign try_except lift pass ret]. rewrite He.
    split; reflexivity.
Qed.

End Fields.

(** ** Texts *)

Lemma split_from_absent (sep : string) (c0 : ascii) (sep' s : string) :
  sep = String c0 sep' -> Str.mem c0 s = false -> Str.split_from sep 0 s = (s, []).
Proof.
  intros ->. induction s as [|c s IH]; [reflexivity|].
  cbn [Str.mem]. intros H. apply orb_false_iff in H as [Hc Hs].
  cbn [Str.split_from String.prefix].
  destruct (Ascii.ascii_dec c0 c) as [->|_].
  - rewrite Ascii.eqb_refl in Hc. discriminate.
  - now rewrite (IH Hs).
Qed.

Lemma split_from_first (c0 : ascii) (a b : string) :
  Str.mem c0 a = false ->
  fst (Str.split_from (String c0 "") 0 (a ++ String c0 b)) = a.
Proof.
  induction a as [|c a IH]; cbn [Str.mem append]; intros H.
  - cbn [Str.split_from String.prefix].
    destruct (Ascii.ascii_dec c0 c0) as [_|N]; [|congruence].
    assert (Hp : String.prefix "" b = true) by now destruct b.
    rewrite Hp. cbn [String.length Nat.sub].
    destruct (Str.split_from (String c0 "") 0 b). reflexivity.
  - apply orb_false_iff in H as [Hc Hs].
    cbn [Str.split_from String.prefix].
    destruct (Ascii.ascii_dec c0 c) as [->|_].
    + rewrite Ascii.eqb_refl in Hc. discriminate.
    + specialize (IH Hs).
      destruct (Str.split_from (String c0 "") 0 (a ++ String c0 b)) as [piece pieces].
      cbn in *. now subst.
Qed.

Lemma prefix_append (s t : string) : String.prefix s (s ++ t) = true.
Proof.
  induction s as [|c s IH]; cbn [append String.prefix]; [now destruct t|].
  destruct (Ascii.ascii_dec c c) as [_|N]; [exact IH | congruence].
Qed.

Lemma split_from_skip (sep s1 s2 : string) :
  Str.split_from sep (String.length s1) (s1 ++ s2) = Str.split_from sep 0 s2.
Proof.
  induction s1 as [|c s1 IH]; [reflexivity|]. exact IH.
Qed.

(** A string that begins with the separator: an empty first piece, then
    the pieces of what follows the separator. *)
Lemma split_from_separator (c0 : ascii) (sep' s : string) :
  Str.split_from (String c0 sep') 0 (String c0 sep' ++ s) =
  let (piece, pieces) := Str.split_from (String c0 sep') 0 s in
  (EmptyString, piece :: pieces).
Proof.
  change (String c0 sep' ++ s) with (String c0 (sep' ++ s)).
  cbn [Str.split_from].
  change (String c0 (sep' ++ s)) with (String c0 sep' ++ s).
  rewrite prefix_append. cbn [String.length Nat.sub].
  rewrite Nat.sub_0_r, split_from_skip. reflexivity.
Qed.

Section Parsing.

Context {F : FloatType} {B : PyBuiltins}.

(** X10: a phone link [tel:n] whose number [n] has no letter [t] gives the
    candidate the phone [n], the scheme removed and nothing else. *)
Theorem phone_after_scheme (c e : WebElement) (n : string) (d : Doctor) :
  candidate c = Ok d ->
  find_element c sel_phone = Ok (Some e) ->
  get_attribute e "href" = Ok (Some ("tel:" ++ n)) ->
  Str.mem "t" n = false ->
  phone d = Some n.
Proof.
  intros Hd He Hh Hn. apply candidate_fields in Hd as (_ & -> & _).
  unfold phone_of, phone_block. run_block. rewrite He. run_block. rewrite Hh.
  run_block. f_equal. unfold Str.replace.
  rewrite (split_from_separator "t" "el:" n).
  rewrite (split_from_absent "tel:" "t" "el:" n eq_refl Hn). reflexivity.
Qed.

(** X11: only the text before the first slash of a rating text is parsed:
    what follows the slash never reaches [float]. *)
Theorem rating_before_slash (a b : string) :
  Str.mem "/" a = false ->
  parse_rating (a ++ "/" ++ b) = or_raise ValueError (py_float (Str.strip a))
  /\ parse_rating a = or_raise ValueError (py_float (Str.strip a)).
Proof.
  intros Ha. unfold parse_rating, Str.split. split.
  - pose proof (split_from_first "/" a b Ha) as H.
    change (a ++ "/" ++ b) with (a ++ String "/" b).
    destruct (Str.split_from "/" 0 (a ++ String "/" b)) as [piece pieces].
    cbn in H. subst piece. reflexivity.
  - rewrite (split_from_absent "/" "/" "" a eq_refl Ha). reflexivity.
Qed.

End Parsing.

Section StripMore.

Variable p : ascii -> bool.

Lemma rstrip_by_snoc_stripped (s : string) (c : ascii) :
  p c = true -> Str.rstrip_by p (s ++ String c "") = Str.rstrip_by p s.
Proof.
  intros Hc. induction s as [|a s IH].
  - cbn. now rewrite Hc.
  - cbn [append]. now rewrite !rstrip_by_cons, IH.
Qed.

Lemma rstrip_by_snoc_kept (s : string) (c : ascii) :
  p c = false -> Str.rstrip_by p (s ++ String c "") = s ++ String c "".
Proof.
  intros Hc. induction s as [|a s IH].
  - cbn. now rewrite Hc.
  - cbn [append]. rewrite rstrip_by_cons, IH. now destruct s.
Qed.

Lemma rstrip_by_unstripped (q : ascii -> bool) (s : string) :
  (forall c, q c = true -> p c = false) -> all_chars q s = true ->
  Str.rstrip_by p s = s.
Proof.
  intros Hq. induction s as [|a s IH]; [reflexivity|].
  cbn [all_chars]. intros H. apply andb_true_iff in H as [Ha Hs].
  rewrite rstrip_by_cons, (IH Hs), (Hq a Ha). now destruct s.
Qed.

End StripMore.

Lemma digit_not_stripped (c : ascii) :
  is_digit c = true -> Str.mem c "()" = false.
Proof.
  destruct c as [[] [] [] [] [] [] [] []]; vm_compute; congruence.
Qed.

Section Counts.

Context {F : FloatType} {B : PyBuiltins}.

(** X12: a count text made of digits between parentheses is parsed as the
    digits: [int] receives them without the parentheses. *)
Theorem rating_count_between_parentheses (n : string) :
  all_chars is_digit n = true ->
  parse_rating_count ("(" ++ n ++ ")") = or_raise ValueError (py_int n).
Proof.
  intros Hn. unfold parse_rating_count. do 2 f_equal.
  assert (Hs : Str.strip ("(" ++ n ++ ")") = "(" ++ n ++ ")").
  { unfold Str.strip. change ("(" ++ n ++ ")") with (String "(" n ++ ")").
    change (Str.lstrip_by Str.is_space (String "(" n ++ ")")) with (String "(" n ++ ")").
    now apply rstrip_by_snoc_kept. }
  rewrite Hs. unfold Str.strip_chars.
  change (Str.lstrip_by (fun c => Str.mem c "()") ("(" ++ n ++ ")"))
    with (Str.lstrip_by (fun c => Str.mem c "()") (n ++ ")")).
  destruct n as [|c r]; [reflexivity|].
  pose proof Hn as Hc. cbn [all_chars] in Hc. apply andb_true_iff in Hc as [Hc _].
  cbn [append Str.lstrip_by]. rewrite (digit_not_stripped c Hc).
  change (String c (r ++ ")")) with (String c r ++ ")").
  rewrite rstrip_by_snoc_stripped by reflexivity.
  apply (rstrip_by_unstripped _ is_digit); [apply digit_not_stripped | exact Hn].
Qed.

End Counts.

(** ** The fields on sample pages *)


Lemma multiple_locations_flag_witness :
  exists d, candidate marker_only = Ok d
            /\ has_multiple_locations d = true /\ location d = None.
Proof.
  destruct (candidate marker_only) as [d|e] eqn:E; [|vm_compute in E; discriminate].
  exists d. split; [reflexivity|]. split.
  - rewrite (multiple_locations_flag marker_only d E). vm_compute. reflexivity.
  - vm_compute in E. now inversion E.
Defined.

Lemma badge_flags_witness :
  exists d, candidate employed_card = Ok d
            /\ is_employed_provider d = true /\ is_accepting_new_patients d = false.
Proof.
  destruct (candidate employed_card) as [d|e] eqn:E; [|vm_compute in E; discriminate].
  exists d. split; [reflexivity|].
  destruct (proj1 (badge_flags employed_card d E) [Page.leaf "Employed Provider" []] eq_refl)
    as [-> ->].
  split; vm_compute; reflexivity.
Defined.

Lemma phone_after_scheme_witness :
  exists d, candidate phone_card = Ok d /\ phone d = Some "334-222-8466".
Proof.
  destruct (candidate phone_card) as [d|e] eqn:E; [|vm_compute in E; discriminate].
  exists d. split; [reflexivity|].
  apply (phone_after_scheme phone_card (Page.leaf "" [("href", "tel:334-222-8466")])
           "334-222-8466" d E); reflexivity.
Defined.

Lemma rating_before_slash_witness :
  parse_rating ("4.8 " ++ "/" ++ " 5") = or_raise ValueError (py_float (Str.strip "4.8 "))
  /\ parse_rating "4.8 " = or_raise ValueError (py_float (Str.strip "4.8 ")).
Proof. apply rating_before_slash. reflexivity. Defined.

Lemma rating_count_between_parentheses_witness :
  parse_rating_count ("(" ++ "194" ++ ")") = or_raise ValueError (py_int "194").
Proof. apply rating_count_between_parentheses. reflexivity. Defined.

(** ** The report *)

Lemma fold_left_snoc {A C : Type} (g : A -> C) (xs : list A) (acc : list C) :
  fold_left (fun l x => (l ++ [g x])%list) xs acc = (acc ++ map g xs)%list.
Proof.
  revert acc. induction xs as [|x xs IH]; intros acc; cbn [fold_left map].
  - now rewrite app_nil_r.
  - now rewrite IH, <- app_assoc.
Qed.

Lemma dict_set_fresh {V : Type} (k : string) (v : V) (d : list (string * V)) :
  ~ In k (map fst d) -> dict_set k v d = (d ++ [(k, v)])%list.
Proof.
  induction d as [|[k' v'] d IH]; intros H; [reflexivity|].
  cbn [dict_set app]. cbn [map fst] in H.
  destruct (String.eqb k k') eqn:E.
  - apply String.eqb_eq in E. subst. exfalso. apply H. now left.
  - f_equal. apply IH. intros Hin. apply H. now right.
Qed.

Lemma fold_dict_set {V W : Type} (g : V -> W) (l : list (string * V))
  (acc : list (string * W)) :
  NoDup (map fst acc ++ map fst l) ->
  fold_left (fun d '(k, v) => dict_set k (g v) d) l acc =
  (acc ++ map (fun '(k, v) => (k, g v)) l)%list.
Proof.
  revert acc. induction l as [|[k v] l IH]; intros acc H; cbn [fold_left map].
  - now rewrite app_nil_r.
  - cbn [map fst] in H. rewrite dict_set_fresh.
    + rewrite IH; [now rewrite <- app_assoc|].
      rewrite map_app, <- app_assoc. exact H.
    + apply NoDup_remove_2 in H. intros Hin. apply H, in_or_app. now left.
Qed.

Section ReportMore.

Context {F : FloatType}.

Lemma keys_In (key : Db.Doctor -> option string) (p : string) (doctors : list Db.Doctor) :
  In p (keys key doctors) <-> exists doc, In doc doctors /\ key doc = Some p.
Proof.
  unfold keys. rewrite in_flat_map. split; intros (doc & Hd & H); exists doc.
  - split; [exact Hd|]. destruct (key doc) as [q|]; [|easy].
    destruct H as [->|[]]. reflexivity.
  - split; [exact Hd|]. rewrite H. now left.
Qed.

Lemma shared_keys_NoDup (doctors : list Db.Doctor) :
  NoDup (map fst (doctors_with_shared_phones doctors)).
Proof.
  rewrite doctors_with_shared_phones_run. unfold shared_groups, partition_by.
  pose proof (first_occurrences_NoDup (keys nonempty_phone doctors)) as H.
  induction (first_occurrences (keys nonempty_phone doctors)) as [|k K IH];
    [constructor|].
  inversion H as [|? ? Hk HK]; subst. cbn [map filter].
  destruct (2 <=? _)%nat; [|now apply IH].
  cbn [map fst]. constructor; [|now apply IH].
  rewrite in_map_iff. intros ([q docs] & Hq & Hin). cbn in Hq. subst q.
  apply filter_In in Hin as [Hin _]. apply in_map_iff in Hin as (q & Hq & Hin).
  inversion Hq; subst. contradiction.
Qed.

Lemma has_key_nonempty (p : string) (doc : Db.Doctor) :
  p <> "" -> has_key nonempty_phone p doc = has_key Db.phone p doc.
Proof.
  intros Hp. unfold has_key, nonempty_phone.
  destruct (Db.phone doc) as [x|]; [|reflexivity].
  destruct x; [|reflexivity]. cbn. destruct p; [congruence | reflexivity].
Qed.

(** X13: a phone number has a group among the shared phones exactly when it
    is not empty and at least two rows carry it; its group is then the
    list of all the rows that carry it, in input order. *)
Theorem shared_group_membership (doctors : list Db.Doctor) (p : string)
  (docs : list Db.Doctor) :
  In (p, docs) (doctors_with_shared_phones doctors) <->
  p <> "" /\ docs = filter (has_key Db.phone p) doctors /\ (2 <= List.length docs)%nat.
Proof.
  rewrite doctors_with_shared_phones_run. unfold shared_groups, partition_by.
  rewrite filter_In, in_map_iff. split.
  - intros ((q & Hq & Hin) & Hlen). inversion Hq; subst q docs.
    apply first_occurrences_In, keys_In in Hin as (doc & _ & Hdoc).
    assert (Hp : p <> "").
    { unfold nonempty_phone in Hdoc. destruct (Db.phone doc) as [x|]; [|discriminate].
      destruct x; cbn in Hdoc; [discriminate|]. inversion Hdoc. discriminate. }
    split; [exact Hp|]. split.
    + apply filter_ext. intros d. now apply has_key_nonempty.
    + now apply Nat.leb_le.
  - intros (Hp & -> & Hlen). split.
    + exists p. split.
      * f_equal. apply filter_ext. intros d. now apply has_key_nonempty.
      * apply first_occurrences_In, keys_In.
        destruct (filter (has_key Db.phone p) doctors) as [|doc rest] eqn:E;
          [cbn in Hlen; lia|].
        assert (Hin : In doc (filter (has_key Db.phone p) doctors))
          by (rewrite E; now left).
        apply filter_In in Hin as [Hin Hk]. exists doc. split; [exact Hin|].
        unfold has_key in Hk. unfold nonempty_phone.
        destruct (Db.phone doc) as [x|]; [|discriminate].
        apply String.eqb_eq in Hk. subst x.
        destruct p; [congruence | reflexivity].
    + now apply Nat.leb_le.
Qed.

Context {B : PyBuiltins}.

(** X14: in a report that [analyze_doctors] returns, the sections are the
    shared phone groups and the rows with several locations, each row as
    its name and profile URL, in input order, and the four counts of the
    summary are the lengths of the list of rows, of the rated rows and of
    the two sections: no group is lost or merged on the way into the
    report. *)
Theorem report_sections (doctors : list Db.Doctor) (report : ReportData) :
  analyze_doctors doctors = Ok report ->
  report_shared_phone_numbers report =
    map (fun '(p, docs) => (p, map entry_of docs)) (doctors_with_shared_phones doctors)
  /\ report_multiple_locations report = map entry_of (filter multiple_locations doctors)
  /\ total_doctors (summary report) = List.length doctors
  /\ doctors_with_ratings (summary report) = List.length (filter has_rating doctors)
  /\ shared_phone_numbers (summary report) =
     List.length (report_shared_phone_numbers report)
  /\ doctors_with_multiple_locations (summary report) =
     List.length (report_multiple_locations report).
Proof.
  unfold analyze_doctors. destruct doctors as [|d ds]; [discriminate|].
  set (doctors := d :: ds). cbn [percent List.length rbind]. intros [= <-].
  cbn [report_shared_phone_numbers report_multiple_locations summary total_doctors
         doctors_with_ratings shared_phone_numbers doctors_with_multiple_locations].
  rewrite fold_left_snoc, fold_dict_set by apply shared_keys_NoDup.
  cbn [app]. rewrite !length_map. repeat split.
Qed.

(** X15: the empty list is the only input on which [analyze_doctors]
    raises, and [ZeroDivisionError] the only exception. *)
Theorem analyze_raises_only_on_empty (doctors : list Db.Doctor) :
  (forall e, analyze_doctors doctors = Raise e -> doctors = [] /\ e = ZeroDivisionError)
  /\ (doctors <> [] -> exists report, analyze_doctors doctors = Ok report).
Proof.
  unfold analyze_doctors. destruct doctors as [|d ds].
  - split; [|congruence]. cbn. intros e [= <-]. now split.
  - split; [discriminate|]. intros _. eexists. reflexivity.
Qed.

End ReportMore.

(** X16: a percentage of the log lines, the count of a part of the rows
    over the count of all rows, is computed whenever there is a row, and
    lies between 0 and 100. *)
Theorem percent_in_range (count total : nat) :
  (count <= total)%nat -> total <> 0%nat ->
  exists q, percent count total = Ok q /\ (0 <= q <= 100)%Q.
Proof.
  intros Hle Hne. destruct total as [|n]; [congruence|].
  eexists. split; [reflexivity|].
  unfold Qle, Qdiv, Qmult, Qinv, inject_Z. cbn [Qnum Qden Z.of_nat].
  cbn. split; nia.
Qed.

Lemma shared_group_membership_witness :
  In ("555-1111", [row 1 "A" (Some "555-1111"); row 2 "B" (Some "555-1111")])
     (doctors_with_shared_phones shared_rows).
Proof.
  apply (proj2 (shared_group_membership shared_rows "555-1111" _)).
  split; [discriminate|]. split; [vm_compute; reflexivity|].
  cbn [List.length]. apply Nat.le_refl.
Defined.

Lemma report_sections_witness :
  exists report,
    analyze_doctors shared_rows = Ok report
    /\ shared_phone_numbers (summary report) = 1%nat
    /\ List.length (report_shared_phone_numbers report) = 1%nat.
Proof.
  destruct (analyze_doctors shared_rows) as [report|e] eqn:E;
    [|vm_compute in E; discriminate].
  exists report. split; [reflexivity|].
  destruct (report_sections shared_rows report E) as (Hs & _ & _ & _ & Hn & _).
  rewrite Hn, Hs. split; vm_compute; reflexivity.
Defined.

Lemma analyze_raises_only_on_empty_witness :
  exists report, analyze_doctors shared_rows = Ok report.
Proof.
  apply (proj2 (analyze_raises_only_on_empty shared_rows)). discriminate.
Defined.

Lemma percent_in_range_witness :
  exists q, percent 1 3 = Ok q /\ (0 <= q <= 100)%Q.
Proof. apply percent_in_range; [lia | discriminate]. Defined.

(** ** The table of doctors *)

Lemma NoDup_snoc {A : Type} (l : list A) (x : A) :
  NoDup l -> ~ In x l -> NoDup (l ++ [x]).
Proof.
  induction l as [|a l IH]; intros Hl Hx; cbn [app].
  - constructor; [easy | constructor].
  - inversion Hl as [|? ? Ha Hl']; subst. constructor.
    + rewrite in_app_iff. intros [H|[->|[]]]; [contradiction|]. apply Hx. now left.
    + apply IH; [exact Hl'|]. intros H. apply Hx. now right.
Qed.

Section Table.

Context {F : FloatType} {O : Orm}.

Import Store.

Lemma same_id_same_row (l : list Db.Doctor) (r r' : Db.Doctor) :
  NoDup (map Db.id l) -> In r l -> In r' l -> Db.id r = Db.id r' -> r = r'.
Proof.
  induction l as [|a l IH]; [easy|].
  cbn [map]. intros Hl Hr Hr' E. inversion Hl as [|? ? Ha Hl']; subst.
  destruct Hr as [->|Hr], Hr' as [->|Hr'].
  - reflexivity.
  - exfalso. apply Ha. rewrite E. now apply in_map.
  - exfalso. apply Ha. rewrite <- E. now apply in_map.
  - now apply IH.
Qed.

Lemma stored_urls_In (u : string) (l : list Db.Doctor) :
  In u (stored_urls l) <->
  Str.truthy u = true /\ exists r, In r l /\ Db.profile_url r = Some u.
Proof.
  unfold stored_urls. rewrite in_flat_map. split.
  - intros (r & Hr & H). destruct (Db.profile_url r) as [v|] eqn:E; [|easy].
    destruct (Str.truthy v) eqn:Hv; [|easy]. destruct H as [->|[]]. eauto.
  - intros (Hu & r & Hr & E). exists r. split; [exact Hr|]. rewrite E, Hu. now left.
Qed.

Lemma stored_urls_app (l1 l2 : list Db.Doctor) :
  stored_urls (l1 ++ l2) = (stored_urls l1 ++ stored_urls l2)%list.
Proof. apply flat_map_app. Qed.


Lemma first_by_profile_url_Some (u : string) (db : Database) (r : Db.Doctor) :
  first_by_profile_url u db = Some r -> In r (rows db) /\ Db.profile_url r = Some u.
Proof.
  unfold first_by_profile_url. intros H. apply find_some in H as [Hr H].
  split; [exact Hr|]. unfold has_profile_url in H.
  destruct (Db.profile_url r) as [v|]; [|discriminate].
  apply String.eqb_eq in H. now subst.
Qed.

Lemma first_by_profile_url_None (u : string) (db : Database) :
  first_by_profile_url u db = None ->
  forall r, In r (rows db) -> Db.profile_url r <> Some u.
Proof.
  unfold first_by_profile_url. intros H r Hr E.
  apply (find_none _ _ H) in Hr. unfold has_profile_url in Hr.
  rewrite E, String.eqb_refl in Hr. discriminate.
Qed.

Lemma existing_row_Some (d : Doctor) (db : Database) (r : Db.Doctor) :
  existing_row d db = Some r ->
  exists u, profile_url d = Some u /\ Str.truthy u = true
            /\ In r (rows db) /\ Db.profile_url r = Some u.
Proof.
  unfold existing_row. destruct (profile_url d) as [u|]; [|discriminate].
  destruct (Str.truthy u) eqn:Hu; [|discriminate].
  intros H. apply first_by_profile_url_Some in H as [Hr E]. eauto.
Qed.

Lemma existing_row_None (d : Doctor) (db : Database) (u : string) :
  existing_row d db = None -> profile_url d = Some u -> Str.truthy u = true ->
  ~ In u (stored_urls (rows db)).
Proof.
  unfold existing_row. intros H Ed Hu. rewrite Ed, Hu in H.
  rewrite stored_urls_In. intros (_ & r & Hr & E).
  now apply (first_by_profile_url_None u db H r Hr).
Qed.

Lemma write_ids (updated : Db.Doctor) (l : list Db.Doctor) :
  map Db.id (write updated l) = map Db.id l.
Proof.
  unfold write. rewrite map_map. apply map_ext. intros row.
  destruct (Z.eqb_spec (Db.id row) (Db.id updated)) as [E|_]; [now rewrite E | reflexivity].
Qed.

Lemma write_urls (updated existing : Db.Doctor) (l : list Db.Doctor) :
  NoDup (map Db.id l) -> In existing l ->
  Db.id updated = Db.id existing ->
  Db.profile_url updated = Db.profile_url existing ->
  stored_urls (write updated l) = stored_urls l.
Proof.
  intros Hl Hex Hid Hurl.
  assert (H : forall row, In row l -> Db.id row = Db.id updated ->
                          Db.profile_url updated = Db.profile_url row).
  { intros row Hrow E. rewrite Hurl. f_equal.
    apply (same_id_same_row l); try assumption. congruence. }
  clear Hl Hex Hid Hurl. unfold write, stored_urls.
  induction l as [|a l IH]; [reflexivity|].
  cbn [map flat_map]. rewrite IH by (intros; apply H; [now right | assumption]).
  f_equal. destruct (Z.eqb_spec (Db.id a) (Db.id updated)) as [E|_]; [|reflexivity].
  now rewrite (H a (or_introl eq_refl) E).
Qed.



Lemma empty_consistent : consistent empty.
Proof. repeat split; constructor. Qed.

Lemma save_doctor_keeps (d : Doctor) (db : Database) :
  consistent db -> consistent (snd (save_doctor d db)).
Proof.
  intros (Hid & Hlt & Hurl). unfold save_doctor, consistent.
  destruct (existing_row d db) as [r|] eqn:E; cbn [snd rows next_id];
    (split; [|split]).
  - now rewrite write_ids.
  - apply existing_row_Some in E as (u & _ & _ & Hr & _).
    unfold write. apply Forall_map. rewrite Forall_forall in *. intros row Hrow.
    destruct (Z.eqb (Db.id row) _); [exact (Hlt r Hr) | exact (Hlt row Hrow)].
  - apply existing_row_Some in E as (u & Hu & _ & Hr & Er).
    rewrite (write_urls _ r); try assumption; [reflexivity|].
    cbn. congruence.
  - rewrite map_app. cbn [map Db.id inserted]. apply NoDup_snoc; [exact Hid|].
    rewrite in_map_iff. intros (row & Erow & Hrow).
    rewrite Forall_forall in Hlt. specialize (Hlt row Hrow). lia.
  - apply Forall_app. split.
    + apply (Forall_impl _ (P := fun row => Db.id row < next_id db)); [|exact Hlt].
      intros row. lia.
    + constructor; [cbn; lia | constructor].
  - rewrite stored_urls_app. unfold stored_urls at 2. cbn [flat_map inserted Db.profile_url].
    destruct (profile_url d) as [u|] eqn:Eu; [|now rewrite !app_nil_r].
    destruct (Str.truthy u) eqn:Hu; [|now rewrite !app_nil_r].
    cbn [app]. apply NoDup_snoc; [exact Hurl|].
    now apply (existing_row_None d db u).
Qed.

(** X17: the empty table is consistent, and [save_doctor] keeps a table
    consistent: the ids stay distinct and below the next value of the
    sequence, and no two rows come to share a non-empty profile URL. *)
Theorem save_doctor_consistent :
  consistent empty
  /\ forall (d : Doctor) (db : Database),
       consistent db -> consistent (snd (save_doctor d db)).
Proof. split; [apply empty_consistent | apply save_doctor_keeps]. Qed.





Lemma save_doctor_length (d : Doctor) (db : Database) :
  (List.length (rows db) <= List.length (rows (snd (save_doctor d db)))
   <= S (List.length (rows db)))%nat.
Proof.
  unfold save_doctor. destruct (existing_row d db); cbn [snd rows].
  - unfold write. rewrite length_map. lia.
  - rewrite length_app. cbn [List.length]. lia.
Qed.

Lemma save_all_cons (d : Doctor) (ds : list Doctor) (db : Database) :
  save_all (d :: ds) db = save_all ds (snd (save_doctor d db)).
Proof. reflexivity. Qed.


Lemma save_all_keeps (ds : list Doctor) (db : Database) :
  consistent db -> consistent (save_all ds db).
Proof.
  revert db. induction ds as [|d ds IH]; intros db H; [exact H|].
  rewrite save_all_cons. apply IH. now apply save_doctor_keeps.
Qed.

Lemma save_all_length (ds : list Doctor) (db : Database) :
  (List.length (rows db) <= List.length (rows (save_all ds db))
   <= List.length (rows db) + List.length ds)%nat.
Proof.
  revert db. induction ds as [|d ds IH]; intros db.
  - cbn. lia.
  - rewrite save_all_cons. pose proof (IH (snd (save_doctor d db))).
    pose proof (save_doctor_length d db). cbn [List.length]. lia.
Qed.




(** X21: the loop of [main] keeps a table consistent, never removes a row
    and adds at most one row per saved record. *)
Theorem save_all_consistent (ds : list Doctor) (db : Database) :
  consistent db ->
  consistent (save_all ds db)
  /\ (List.length (rows db) <= List.length (rows (save_all ds db))
      <= List.length (rows db) + List.length ds)%nat.
Proof.
  intros H. split; [now apply save_all_keeps | apply save_all_length].
Qed.





End Table.

Section Pipeline.

Context {F : FloatType} {B : PyBuiltins} {O : Orm}.

(** X23: after one crawl saved into the empty table, the report counts at
    most as many doctors as the page has containers. *)
Theorem report_total_bounded (cs : list WebElement) (report : ReportData) :
  analyze_doctors (Store.get_all_doctors (Store.save_all (extract cs) Store.empty))
  = Ok report ->
  (total_doctors (summary report) <= List.length cs)%nat.
Proof.
  unfold analyze_doctors, Store.get_all_doctors.
  pose proof (Store_length_bound := @save_all_length F O (extract cs) Store.empty).
  pose proof (extract_length cs).
  destruct (percent _ _); [|discriminate]. cbn [rbind].
  destruct (percent _ _); [|discriminate]. cbn [rbind].
  intros [= <-]. cbn [summary total_doctors]. cbn [Store.rows Store.empty List.length] in *.
  lia.
Qed.

End Pipeline.

(** ** The table on sample records *)

Lemma save_doctor_consistent_witness :
  Store.consistent (snd (Store.save_doctor first_visit Store.empty)).
Proof.
  exact (proj2 save_doctor_consistent first_visit Store.empty
           (proj1 save_doctor_consistent)).
Defined.




Lemma save_all_consistent_witness :
  Store.consistent (Store.save_all [first_visit; second_visit] Store.empty).
Proof.
  exact (proj1 (save_all_consistent [first_visit; second_visit] Store.empty
                  empty_consistent)).
Defined.


Lemma report_total_bounded_witness :
  exists report,
    analyze_doctors
      (Store.get_all_doctors
         (Store.save_all (extract [jane; nameless; john]) Store.empty)) = Ok report
    /\ (total_doctors (summary report) <= 3)%nat.
Proof.
  destruct (analyze_doctors
              (Store.get_all_doctors
                 (Store.save_all (extract [jane; nameless; john]) Store.empty)))
    as [report|e] eqn:E; [|vm_compute in E; discriminate].
  exists report. split; [reflexivity|].
  exact (report_total_bounded [jane; nameless; john] report E).
Defined.
